(** * Envelope construction of the Sentry JavaScript SDK

    A shallow embedding of [packages/core/src/envelope.ts] and of the replay
    segment sequencing that [packages/integration-tests/suites/replay/
    multiple-pages/test.ts] exercises.

    JavaScript objects that the code shares and mutates in place (events, the
    [sdk] record of an event, the arrays it holds, sessions) live in a store
    and are passed by reference.  Object literals that the code builds afresh
    (envelope headers, item headers) are plain JSON-like values. *)

From Stdlib Require QArith.
From stdpp Require Import gmap strings list fin_maps.

Local Open Scope string_scope.
Local Open Scope list_scope.

(** ** JavaScript values *)

(** JSON-like data.  An object literal keeps its keys in insertion order; a
    key may be present with the value [undefined]. *)
#[local] Unset Elimination Schemes.
Inductive jsval : Type :=
| JUndefined
| JNull
| JBool (b : bool)
| JNumber (q : QArith_base.Q)
| JString (s : string)
| JArray (items : list jsval)
| JObject (fields : list (string * jsval)).
#[local] Set Elimination Schemes.

Definition js_object := list (string * jsval).

(** [k in o] for a plain object. *)
Definition has_key (k : string) (o : js_object) : bool :=
  existsb (fun kv => String.eqb k (fst kv)) o.

(** [o[k]] for a plain object; [None] when the key is absent. *)
Fixpoint get_prop (k : string) (o : js_object) : option jsval :=
  match o with
  | [] => None
  | (k', v) :: r => if String.eqb k k' then Some v else get_prop k r
  end.

(** [o[k] = v]: an existing key keeps its position, a new key goes last. *)
Fixpoint set_prop (k : string) (v : jsval) (o : js_object) : js_object :=
  match o with
  | [] => [(k, v)]
  | (k', v') :: r =>
      if String.eqb k k' then (k, v) :: r else (k', v') :: set_prop k v r
  end.

(** [{ ...o, ...src }] where [src] is an object or a falsy value; spreading a
    falsy value adds nothing. *)
Definition spread (o : js_object) (src : option js_object) : js_object :=
  match src with
  | None => o
  | Some fs => fold_left (fun acc kv => set_prop (fst kv) (snd kv) acc) fs o
  end.

(** A value of type [string | undefined] as a JSON value. *)
Definition of_string (s : option string) : jsval :=
  match s with Some x => JString x | None => JUndefined end.

Definition of_number (q : option QArith_base.Q) : jsval :=
  match q with Some x => JNumber x | None => JUndefined end.

(** Truthiness of a [string | undefined]: [undefined] and the empty string
    are falsy. *)
Definition truthy (s : option string) : bool :=
  match s with
  | Some x => negb (String.eqb x EmptyString)
  | None => false
  end.

(** [a || b] on [string | undefined]. *)
Definition js_or (a b : option string) : option string :=
  if truthy a then a else b.

(** [a || d] where [d] is a string literal. *)
Definition or_else (a : option string) (d : string) : string :=
  match js_or a (Some d) with Some x => x | None => d end.

(** ** The data model *)

(** Modelled from the spec: the declaration of [EventType] (@sentry/types),
    which envelope.ts imports with [Event].  The type discriminators are
    string literals ('event', 'transaction', ...): a member of the union is a
    non-empty string, which the code compares with 'transaction'. *)
Record EventType : Type := {
  literal : string;
  literal_truthy : truthy (Some literal) = true
}.

(** References into the store. *)
Abbreviation loc := positive.

(** [SdkInfo]: the [sdk] record of an event and the descriptor of
    [SdkMetadata].  The two lists are arrays, held by reference. *)
Record SdkInfo : Type := {
  name : option string;
  version : option string;
  integrations : option loc;
  packages : option loc
}.

(** [SdkMetadata]: [{ sdk?: SdkInfo }]. *)
Record SdkMetadata : Type := { md_sdk : option loc }.

Record TransactionSampling : Type := {
  method : option string;
  rate : option QArith_base.Q
}.

Record SdkProcessingMetadata : Type := {
  transactionSampling : option TransactionSampling;
  metadata_other : js_object
}.

Record TraceContext : Type := {
  trace_id : option string;
  trace_other : js_object
}.

Record Contexts : Type := {
  trace : option TraceContext;
  contexts_other : js_object
}.

Record User : Type := {
  user_id : option string;
  user_segment : option string;
  user_other : js_object
}.

(** The fields of [Event] that envelope.ts reads or writes; every other
    field of the event is kept in [event_other]. *)
Record Event : Type := {
  event_id : option string;
  type : option EventType;
  sdk : option loc;
  sdkProcessingMetadata : option SdkProcessingMetadata;
  contexts : option Contexts;
  environment : option string;
  release : option string;
  transaction : option string;
  user : option User;
  event_other : js_object
}.

(** [event.sdk = s] *)
Definition with_sdk (s : option loc) (e : Event) : Event :=
  {| event_id := event_id e; type := type e; sdk := s;
     sdkProcessingMetadata := sdkProcessingMetadata e;
     contexts := contexts e; environment := environment e;
     release := release e; transaction := transaction e; user := user e;
     event_other := event_other e |}.

(** [delete event.sdkProcessingMetadata] *)
Definition delete_sdkProcessingMetadata (e : Event) : Event :=
  {| event_id := event_id e; type := type e; sdk := sdk e;
     sdkProcessingMetadata := None;
     contexts := contexts e; environment := environment e;
     release := release e; transaction := transaction e; user := user e;
     event_other := event_other e |}.

Definition with_name (n : option string) (i : SdkInfo) : SdkInfo :=
  {| name := n; version := version i;
     integrations := integrations i; packages := packages i |}.

Definition with_version (v : option string) (i : SdkInfo) : SdkInfo :=
  {| name := name i; version := v;
     integrations := integrations i; packages := packages i |}.

Definition with_integrations (a : option loc) (i : SdkInfo) : SdkInfo :=
  {| name := name i; version := version i;
     integrations := a; packages := packages i |}.

Definition with_packages (a : option loc) (i : SdkInfo) : SdkInfo :=
  {| name := name i; version := version i;
     integrations := integrations i; packages := a |}.

(** The object literal [{}] at type [SdkInfo]. *)
Definition empty_SdkInfo : SdkInfo :=
  {| name := None; version := None; integrations := None; packages := None |}.

(** ** The store *)

(** What a reference can point to.  A session ([Session] or
    [SessionAggregates]) is a plain object: the code only asks which keys it
    has. *)
Inductive obj : Type :=
| OEvent (e : Event)
| OSdkInfo (i : SdkInfo)
| OArray (items : list jsval)
| OSession (fields : js_object).

Abbreviation heap := (gmap loc obj).

(** Computations on the store.  [None] stands for a reference that does not
    point to an object of the expected kind, which no JavaScript state has. *)
Definition M (A : Type) : Type := heap -> option (A * heap).

Definition ret {A} (a : A) : M A := fun h => Some (a, h).

Definition bind {A B} (m : M A) (k : A -> M B) : M B :=
  fun h => match m h with
           | Some (a, h') => k a h'
           | None => None
           end.

Definition fail {A} : M A := fun _ => None.

Notation "'let*' x ':=' m 'in' k" := (bind m (fun x => k))
  (at level 10, x name, m at level 100, k at level 200).
Notation "m ';;' k" := (bind m (fun _ => k))
  (at level 100, k at level 200, right associativity).

(** A new object gets a reference that is not in use. *)
Definition alloc (o : obj) : M loc :=
  fun h => let l := fresh (dom h) in Some (l, <[l := o]> h).

Definition store (l : loc) (o : obj) : M unit :=
  fun h => Some (tt, <[l := o]> h).

Definition load_event (l : loc) : M Event :=
  fun h => match h !! l with Some (OEvent e) => Some (e, h) | _ => None end.

Definition load_sdk (l : loc) : M SdkInfo :=
  fun h => match h !! l with Some (OSdkInfo i) => Some (i, h) | _ => None end.

Definition load_array (l : loc) : M (list jsval) :=
  fun h => match h !! l with Some (OArray a) => Some (a, h) | _ => None end.

Definition load_session (l : loc) : M js_object :=
  fun h => match h !! l with Some (OSession s) => Some (s, h) | _ => None end.

(** The elements of [a || []]. *)
Definition elements_or_empty (a : option loc) : M (list jsval) :=
  match a with
  | Some l => load_array l
  | None => ret []
  end.

(** The object that [event.sdk] refers to, once it is set. *)
Definition event_sdk (event : loc) : M loc :=
  let* e := load_event event in
  match sdk e with
  | Some s => ret s
  | None => fail
  end.

(** ** What envelope.ts imports *)

(** [DsnComponents] (of @sentry/types) and [dsnToString] (of @sentry/utils)
    are parameters: the code reads [dsn.publicKey] and calls
    [dsnToString(dsn)], and nothing else of them matters here. *)
Class Imports : Type := {
  DsnComponents : Type;
  publicKey : DsnComponents -> option string;
  dsnToString : DsnComponents -> string
}.

(** Modelled from the spec: [dropUndefinedKeys] of @sentry/utils, which
    envelope.ts imports and whose source is outside this development.  "All
    undefined-valued fields inside the trace sub-object are dropped": a key
    whose value is [undefined] is left out, at every depth; everything else
    is kept, in its order. *)
Fixpoint dropUndefinedKeys (v : jsval) : jsval :=
  match v with
  | JObject fields =>
      JObject
        ((fix drop (fs : list (string * jsval)) : list (string * jsval) :=
            match fs with
            | [] => []
            | (k, JUndefined) :: r => drop r
            | (k, x) :: r => (k, dropUndefinedKeys x) :: drop r
            end) fields)
  | JArray items => JArray (map dropUndefinedKeys items)
  | _ => v
  end.

(** An envelope: its headers and its items, each an item header with a
    payload.  The payload is the event or session object itself, by
    reference. *)
Definition Envelope : Type := js_object * list (js_object * loc).

(** Modelled from the spec: [createEnvelope] of @sentry/utils, which
    envelope.ts imports and whose source is outside this development.
    "(header, items[]) -> Envelope.  No validation of
    item contents; purely structural packaging." *)
Definition createEnvelope (headers : js_object)
    (items : list (js_object * loc)) : Envelope :=
  (headers, items).

(** ** envelope.ts *)

Section Envelope.

Context {imports : Imports}.

(** The value of [new Date().toISOString()] at the call. *)
Variable now : string.

(** Extract sdk info from from the API metadata *)
Definition getSdkMetadataForEnvelopeHeader (metadata : option SdkMetadata)
  : M (option js_object) :=
  match metadata with
  | None => ret None
  | Some m =>
      match md_sdk m with
      | None => ret None
      | Some s =>
          let* i := load_sdk s in
          ret (Some [("name", of_string (name i));
                     ("version", of_string (version i))])
      end
  end.

(** The five statements of [enhanceEventWithSdkInfo] after its guard. *)

(** [event.sdk = event.sdk || {};] *)
Definition assign_sdk (event : loc) : M unit :=
  let* e := load_event event in
  let* s := match sdk e with
            | Some s => ret s
            | None => alloc (OSdkInfo empty_SdkInfo)
            end in
  store event (OEvent (with_sdk (Some s) e)).

(** [event.sdk.name = event.sdk.name || sdkInfo.name;] *)
Definition assign_name (event info : loc) : M unit :=
  let* s := event_sdk event in
  let* cur := load_sdk s in
  let* d := load_sdk info in
  store s (OSdkInfo (with_name (js_or (name cur) (name d)) cur)).

(** [event.sdk.version = event.sdk.version || sdkInfo.version;] *)
Definition assign_version (event info : loc) : M unit :=
  let* s := event_sdk event in
  let* cur := load_sdk s in
  let* d := load_sdk info in
  store s (OSdkInfo (with_version (js_or (version cur) (version d)) cur)).

(** [event.sdk.integrations =
      [...(event.sdk.integrations || []), ...(sdkInfo.integrations || [])];] *)
Definition assign_integrations (event info : loc) : M unit :=
  let* s := event_sdk event in
  let* cur := load_sdk s in
  let* mine := elements_or_empty (integrations cur) in
  let* d := load_sdk info in
  let* theirs := elements_or_empty (integrations d) in
  let* a := alloc (OArray (mine ++ theirs)) in
  let* cur := load_sdk s in
  store s (OSdkInfo (with_integrations (Some a) cur)).

(** [event.sdk.packages =
      [...(event.sdk.packages || []), ...(sdkInfo.packages || [])];] *)
Definition assign_packages (event info : loc) : M unit :=
  let* s := event_sdk event in
  let* cur := load_sdk s in
  let* mine := elements_or_empty (packages cur) in
  let* d := load_sdk info in
  let* theirs := elements_or_empty (packages d) in
  let* a := alloc (OArray (mine ++ theirs)) in
  let* cur := load_sdk s in
  store s (OSdkInfo (with_packages (Some a) cur)).

(** Apply SdkInfo (name, version, packages, integrations) to the
    corresponding event key.  Merge with existing data if any. *)
Definition enhanceEventWithSdkInfo (event : loc) (sdkInfo : option loc)
  : M loc :=
  match sdkInfo with
  | None => ret event
  | Some info =>
      assign_sdk event ;;
      assign_name event info ;;
      assign_version event info ;;
      assign_integrations event info ;;
      assign_packages event info ;;
      ret event
  end.

(** [sdkInfo && { sdk: sdkInfo }] *)
Definition sdk_entry (sdkInfo : option js_object) : option js_object :=
  match sdkInfo with
  | Some i => Some [("sdk", JObject i)]
  | None => None
  end.

(** [!!tunnel && { dsn: dsnToString(dsn) }] *)
Definition dsn_entry (tunnel : option string) (dsn : DsnComponents)
  : option js_object :=
  if truthy tunnel then Some [("dsn", JString (dsnToString dsn))] else None.

(** Creates an envelope from a Session *)
Definition createSessionEnvelope (session : loc) (dsn : DsnComponents)
    (metadata : option SdkMetadata) (tunnel : option string) : M Envelope :=
  let* sdkInfo := getSdkMetadataForEnvelopeHeader metadata in
  let envelopeHeaders :=
    spread (spread [("sent_at", JString now)] (sdk_entry sdkInfo))
      (dsn_entry tunnel dsn) in
  let* fields := load_session session in
  let envelopeItem :=
    if has_key "aggregates" fields
    then ([("type", JString "sessions")], session)
    else ([("type", JString "session")], session) in
  ret (createEnvelope envelopeHeaders [envelopeItem]).

(** [event.type === 'transaction'] *)
Definition is_transaction (e : Event) : bool :=
  match type e with
  | Some t => String.eqb (literal t) "transaction"
  | None => false
  end.

(** [event.type === 'transaction' && event.contexts && event.contexts.trace
    && { trace: dropUndefinedKeys({ ... }) }] *)
Definition trace_entry (e : Event) (dsn : DsnComponents) : option js_object :=
  if is_transaction e then
    match contexts e with
    | Some c =>
        match trace c with
        | Some t =>
            Some [("trace",
                   dropUndefinedKeys
                     (JObject
                        [("trace_id", of_string (trace_id t));
                         ("environment", of_string (environment e));
                         ("release", of_string (release e));
                         ("transaction", of_string (transaction e));
                         ("user",
                          match user e with
                          | Some u =>
                              JObject [("id", of_string (user_id u));
                                       ("segment", of_string (user_segment u))]
                          | None => JUndefined
                          end);
                         ("public_key", of_string (publicKey dsn))]))]
        | None => None
        end
    | None => None
    end
  else None.

(** The object literal that [createEventEnvelopeHeaders] returns, from the
    fields of the event as they are at the call. *)
Definition event_envelope_headers (e : Event) (sdkInfo : option js_object)
    (tunnel : option string) (dsn : DsnComponents) : js_object :=
  spread
    (spread
       (spread [("event_id", of_string (event_id e));
                ("sent_at", JString now)]
          (sdk_entry sdkInfo))
       (dsn_entry tunnel dsn))
    (trace_entry e dsn).

Definition createEventEnvelopeHeaders (event : loc)
    (sdkInfo : option js_object) (tunnel : option string)
    (dsn : DsnComponents) : M js_object :=
  let* e := load_event event in
  ret (event_envelope_headers e sdkInfo tunnel dsn).

(** [metadata && metadata.sdk] *)
Definition metadata_sdk (metadata : option SdkMetadata) : option loc :=
  match metadata with
  | Some m => md_sdk m
  | None => None
  end.

(** Create an Envelope from an event. *)
Definition createEventEnvelope (event : loc) (dsn : DsnComponents)
    (metadata : option SdkMetadata) (tunnel : option string) : M Envelope :=
  let* sdkInfo := getSdkMetadataForEnvelopeHeader metadata in
  let* e := load_event event in
  let eventType := or_else (option_map literal (type e)) "event" in
  let transactionSampling :=
    match sdkProcessingMetadata e with
    | Some m => transactionSampling m
    | None => None
    end in
  let samplingMethod :=
    match transactionSampling with Some t => method t | None => None end in
  let sampleRate :=
    match transactionSampling with Some t => rate t | None => None end in
  enhanceEventWithSdkInfo event (metadata_sdk metadata) ;;
  (* delete event.sdkProcessingMetadata; *)
  let* e := load_event event in
  store event (OEvent (delete_sdkProcessingMetadata e)) ;;
  let* envelopeHeaders := createEventEnvelopeHeaders event sdkInfo tunnel dsn in
  let eventItem :=
    ([("type", JString eventType);
      ("sample_rates",
       JArray [JObject [("id", of_string samplingMethod);
                        ("rate", of_number sampleRate)]])],
     event) in
  ret (createEnvelope envelopeHeaders [eventItem]).

End Envelope.

(** ** Reading the store *)

(** The statements about the code are made on stores in which the
    references at hand point to objects of the right kind. *)
Definition valid_array (h : heap) (a : option loc) : bool :=
  match a with
  | Some l => match h !! l with Some (OArray _) => true | _ => false end
  | None => true
  end.

Definition valid_sdk (h : heap) (s : loc) : bool :=
  match h !! s with
  | Some (OSdkInfo i) =>
      valid_array h (integrations i) && valid_array h (packages i)
  | _ => false
  end.

Definition valid_event (h : heap) (event : loc) : bool :=
  match h !! event with
  | Some (OEvent e) =>
      match sdk e with Some s => valid_sdk h s | None => true end
  | _ => false
  end.

Definition valid_metadata (h : heap) (metadata : option SdkMetadata) : bool :=
  match metadata_sdk metadata with
  | Some s => valid_sdk h s
  | None => true
  end.

(** [array_at h a xs]: in [h], the elements of [a || []] are [xs]. *)
Definition array_at (h : heap) (a : option loc) (xs : list jsval) : Prop :=
  match a with
  | Some l => h !! l = Some (OArray xs)
  | None => xs = []
  end.

(** The elements of [a || []] in [h]. *)
Definition elements (h : heap) (a : option loc) : list jsval :=
  match a with
  | Some l => match h !! l with Some (OArray xs) => xs | _ => [] end
  | None => []
  end.

(** The [SdkInfo] object that [info] points to. *)
Definition descriptor (h : heap) (info : loc) : SdkInfo :=
  match h !! info with Some (OSdkInfo i) => i | _ => empty_SdkInfo end.

(** [event.sdk || {}] in [h]. *)
Definition sdk_record (h : heap) (event : loc) : SdkInfo :=
  match h !! event with
  | Some (OEvent e) =>
      match sdk e with Some s => descriptor h s | None => empty_SdkInfo end
  | _ => empty_SdkInfo
  end.

Definition sdk_name (h : heap) (event : loc) : option string :=
  name (sdk_record h event).

Definition sdk_version (h : heap) (event : loc) : option string :=
  version (sdk_record h event).

Definition sdk_integrations (h : heap) (event : loc) : list jsval :=
  elements h (integrations (sdk_record h event)).

Definition sdk_packages (h : heap) (event : loc) : list jsval :=
  elements h (packages (sdk_record h event)).

(** The four assignments of [enhanceEventWithSdkInfo] that follow
    [event.sdk = event.sdk || {}]. *)
Definition merge_statements (event info : loc) : M loc :=
  assign_name event info ;;
  assign_version event info ;;
  assign_integrations event info ;;
  assign_packages event info ;;
  ret event.

(** The [sdk] record after the merge of descriptor [d] into [cur], with the
    two new arrays at [a1] and [a2]. *)
Definition merged (cur d : SdkInfo) (a1 a2 : loc) : SdkInfo :=
  {| name := js_or (name cur) (name d);
     version := js_or (version cur) (version d);
     integrations := Some a1;
     packages := Some a2 |}.

(** The store after the merge: the event points to its [sdk] record at [s],
    which holds the merged fields and the two new arrays. *)
Definition enhanced (h : heap) (event info : loc) (e : Event)
    (s a1 a2 : loc) : heap :=
  let cur := sdk_record h event in
  let d := descriptor h info in
  <[s := OSdkInfo (merged cur d a1 a2)]>
    (<[a2 := OArray (elements h (packages cur) ++ elements h (packages d))]>
       (<[a1 := OArray (elements h (integrations cur)
                        ++ elements h (integrations d))]>
          (<[event := OEvent (with_sdk (Some s) e)]> h))).

(** Where the merge puts things: [s] is the [sdk] record the event had, or a
    reference that was not in use; [a1] and [a2] were not in use. *)
Definition placed (h : heap) (e : Event) (s a1 a2 : loc) : Prop :=
  (sdk e = Some s \/ (sdk e = None /\ h !! s = None)) /\
  h !! a1 = None /\ h !! a2 = None /\ a1 <> a2 /\ s <> a1 /\ s <> a2.

(** What [getSdkMetadataForEnvelopeHeader] returns in a store. *)
Definition header_sdkInfo (h : heap) (metadata : option SdkMetadata)
  : option js_object :=
  match metadata_sdk metadata with
  | Some s => Some [("name", of_string (name (descriptor h s)));
                    ("version", of_string (version (descriptor h s)))]
  | None => None
  end.

(** The item header that [createEventEnvelope] builds for an event. *)
Definition event_item_header (e : Event) : js_object :=
  let sampling :=
    match sdkProcessingMetadata e with
    | Some m => transactionSampling m
    | None => None
    end in
  [("type", JString (match type e with
                     | Some t => literal t
                     | None => "event"
                     end));
   ("sample_rates",
    JArray [JObject
              [("id", of_string (match sampling with
                                 | Some t => method t
                                 | None => None
                                 end));
               ("rate", of_number (match sampling with
                                   | Some t => rate t
                                   | None => None
                                   end))]])].

(** [event.sdkProcessingMetadata.transactionSampling], when both are there. *)
Definition sampling (e : Event) : option TransactionSampling :=
  sdkProcessingMetadata e ≫= transactionSampling.

(** The event carries a trace context: [event.contexts.trace] is there. *)
Definition has_trace_context (e : Event) : bool :=
  match contexts e with
  | Some c => match trace c with Some _ => true | None => false end
  | None => false
  end.

Definition is_transaction_type (e : Event) : Prop :=
  exists t : EventType, type e = Some t /\ literal t = "transaction".

Definition carries_trace_context (e : Event) : Prop :=
  exists (c : Contexts) (t : TraceContext),
    contexts e = Some c /\ trace c = Some t.



(** No object anywhere inside [v] has a key whose value is [undefined]. *)
Fixpoint no_undefined_keys (v : jsval) : bool :=
  match v with
  | JObject fields =>
      (fix all (fs : list (string * jsval)) : bool :=
         match fs with
         | [] => true
         | (_, JUndefined) :: _ => false
         | (_, x) :: r => no_undefined_keys x && all r
         end) fields
  | JArray items => forallb no_undefined_keys items
  | _ => true
  end.

(** Induction on JSON-like values, through arrays and objects. *)
Section jsval_induction.

Variable P : jsval -> Prop.
Hypothesis Hundefined : P JUndefined.
Hypothesis Hnull : P JNull.
Hypothesis Hbool : forall b, P (JBool b).
Hypothesis Hnumber : forall q, P (JNumber q).
Hypothesis Hstring : forall s, P (JString s).
Hypothesis Harray : forall items, Forall P items -> P (JArray items).
Hypothesis Hobject :
  forall fields, Forall (fun kv => P (snd kv)) fields -> P (JObject fields).

Fixpoint jsval_nested_ind (v : jsval) : P v :=
  match v with
  | JUndefined => Hundefined
  | JNull => Hnull
  | JBool b => Hbool b
  | JNumber q => Hnumber q
  | JString s => Hstring s
  | JArray items =>
      Harray items
        ((fix go (l : list jsval) : Forall P l :=
            match l with
            | [] => List.Forall_nil P
            | x :: r => List.Forall_cons P x r (jsval_nested_ind x) (go r)
            end) items)
  | JObject fields =>
      Hobject fields
        ((fix go (l : list (string * jsval))
            : Forall (fun kv => P (snd kv)) l :=
            match l with
            | [] => List.Forall_nil _
            | kv :: r =>
                List.Forall_cons (fun kv => P (snd kv)) kv r
                  (jsval_nested_ind (snd kv)) (go r)
            end) fields)
  end.

End jsval_induction.

(** ** Two readings that the code does not bear out *)

(** "[sdk.name] is set only if it is absent on the event": a name that is
    present before the merge is the name after it. *)
Definition name_set_only_if_absent : Prop :=
  forall (h h1 : heap) (event info : loc) (n : string),
    valid_event h event = true -> valid_sdk h info = true ->
    enhanceEventWithSdkInfo event (Some info) h = Some (event, h1) ->
    sdk_name h event = Some n -> sdk_name h1 event = Some n.

(** "An event without [event_id] makes the header builder fail": no headers
    are returned for it. *)
Definition fails_without_event_id : Prop :=
  forall (I : Imports) (now : string) (h : heap) (event : loc) (e : Event)
         (sdkInfo : option js_object) (tunnel : option string)
         (dsn : DsnComponents),
    h !! event = Some (OEvent e) -> event_id e = None ->
    createEventEnvelopeHeaders now event sdkInfo tunnel dsn h = None.

(** ** Replay segmentation *)

(** The integration test multiple-pages/test.ts drives the replay
    integration of the SDK and reads the segments it sends.  The sequencer
    below is the Segmenter of that integration as sections 4.6 and 4.7 of the
    spec describe it. *)

(** Modelled from the spec: the Segment Accumulator of the replay
    integration, whose source is outside this development.  Four data kinds
    (full snapshot, incremental mutation batch, breadcrumb, performance
    span), each "appended to an in-memory ordered sequence scoped to the
    current, not-yet-flushed segment". *)
Record Accumulator : Type := {
  fullSnapshots : list jsval;
  incrementalSnapshots : list jsval;
  breadcrumbs : list jsval;
  performanceSpans : list jsval
}.






(** Modelled from the spec: what the Accumulator and the Segmenter consume.
    [start] and [reloaded] carry the full snapshot taken at that moment. *)
Inductive Signal : Type :=
| start (snapshot : jsval)
| stop
| tick
| backgrounded
| navigated
| manual_flush
| reloaded (snapshot : jsval)
| full_snapshot (x : jsval)
| incremental_snapshot (x : jsval)
| breadcrumb (x : jsval)
| performance_span (x : jsval).

(** Modelled from the spec: the append operations of the Accumulator. *)
Definition append (sig : Signal) (a : Accumulator) : Accumulator :=
  match sig with
  | full_snapshot x =>
      {| fullSnapshots := fullSnapshots a ++ [x];
         incrementalSnapshots := incrementalSnapshots a;
         breadcrumbs := breadcrumbs a;
         performanceSpans := performanceSpans a |}
  | incremental_snapshot x =>
      {| fullSnapshots := fullSnapshots a;
         incrementalSnapshots := incrementalSnapshots a ++ [x];
         breadcrumbs := breadcrumbs a;
         performanceSpans := performanceSpans a |}
  | breadcrumb x =>
      {| fullSnapshots := fullSnapshots a;
         incrementalSnapshots := incrementalSnapshots a;
         breadcrumbs := breadcrumbs a ++ [x];
         performanceSpans := performanceSpans a |}
  | performance_span x =>
      {| fullSnapshots := fullSnapshots a;
         incrementalSnapshots := incrementalSnapshots a;
         breadcrumbs := breadcrumbs a;
         performanceSpans := performanceSpans a ++ [x] |}
  | _ => a
  end.







(** ** Sample stores *)

(** An event (1) whose [sdk] record (2) has the empty string as its name,
    and a descriptor (3); their arrays (4, 5, 6). *)
Definition c1_event : Event :=
  {| event_id := Some "fc6d8c0c43fc4630ad850ee518f1b9d0"; type := None;
     sdk := Some 2%positive; sdkProcessingMetadata := None; contexts := None;
     environment := None; release := None; transaction := None; user := None;
     event_other := [("message", JString "boom")] |}.

Definition c1_heap : heap :=
  <[1%positive := OEvent c1_event]>
    (<[2%positive := OSdkInfo {| name := Some EmptyString;
                                  version := Some "7.0.0";
                                  integrations := Some 4%positive;
                                  packages := None |}]>
       (<[3%positive := OSdkInfo {| name := Some "sentry.javascript.browser";
                                     version := Some "7.1.0";
                                     integrations := Some 5%positive;
                                     packages := Some 6%positive |}]>
          (<[4%positive := OArray [JString "InboundFilters"]]>
             (<[5%positive := OArray [JString "InboundFilters";
                                      JString "TryCatch"]]>
                (<[6%positive :=
                     OArray [JObject [("name", JString "npm:@sentry/browser");
                                      ("version", JString "7.1.0")]]]> ∅))))).

(** An event (1) without an [sdk] record and a descriptor (2) without
    lists. *)
Definition c10_event : Event :=
  {| event_id := Some "5b8e5d7d9b1f4d8a8f0e6a3c2d1b0a99"; type := None;
     sdk := None; sdkProcessingMetadata := None; contexts := None;
     environment := None; release := None; transaction := None; user := None;
     event_other := [] |}.

Definition c10_heap : heap :=
  <[1%positive := OEvent c10_event]>
    (<[2%positive := OSdkInfo {| name := Some "sentry.javascript.node";
                                  version := Some "7.1.0";
                                  integrations := None;
                                  packages := None |}]> ∅).

(** An instance of what envelope.ts imports. *)
Record SampleDsn : Type := {
  sample_publicKey : string;
  sample_host : string;
  sample_projectId : string
}.

Definition sample_imports : Imports :=
  {| DsnComponents := SampleDsn;
     publicKey := fun d => Some (sample_publicKey d);
     dsnToString := fun d =>
       String.append "https://"
         (String.append (sample_publicKey d)
            (String.append "@"
               (String.append (sample_host d)
                  (String.append "/" (sample_projectId d))))) |}.

Definition sample_dsn : SampleDsn :=
  {| sample_publicKey := "abc123"; sample_host := "sentry.example.com";
     sample_projectId := "42" |}.

Definition sample_now : string := "2022-06-01T12:00:00.000Z".

Definition transaction_type : EventType :=
  {| literal := "transaction"; literal_truthy := eq_refl |}.

Definition sample_transaction : Event :=
  {| event_id := Some "9ec79c33ec9942ab8353589fcb2e04dc";
     type := Some transaction_type;
     sdk := Some 2%positive;
     sdkProcessingMetadata :=
       Some {| transactionSampling :=
                 Some {| method := Some "client_rate";
                         rate := Some (QArith_base.Qmake 1 4) |};
               metadata_other := [("baseClientNormalized", JBool true)] |};
     contexts := Some {| trace := Some {| trace_id :=
                                            Some "86f39e84263a4de99c326acab3bfe3bd";
                                          trace_other := [] |};
                         contexts_other := [] |};
     environment := Some "production";
     release := None;
     transaction := Some "/users/:id";
     user := Some {| user_id := Some "7"; user_segment := None;
                     user_other := [("email", JString "a@example.com")] |};
     event_other := [("timestamp", JNumber (QArith_base.Qmake 1654084800 1))] |}.

Definition sample_error : Event :=
  {| event_id := None; type := None; sdk := None;
     sdkProcessingMetadata := None; contexts := None; environment := None;
     release := None; transaction := None; user := None;
     event_other := [("message", JString "boom")] |}.

(** A store with a transaction (1), its [sdk] record (2), the descriptor of
    the SDK metadata (3), their arrays (4, 5, 6), an event that has neither
    event_id nor sdk (7), a Session (8) and a SessionAggregates (9). *)
Definition sample_heap : heap :=
  <[1%positive := OEvent sample_transaction]>
    (<[2%positive := OSdkInfo {| name := Some "sentry.javascript.react";
                                  version := None;
                                  integrations := Some 4%positive;
                                  packages := None |}]>
       (<[3%positive := OSdkInfo {| name := Some "sentry.javascript.browser";
                                     version := Some "7.1.0";
                                     integrations := Some 5%positive;
                                     packages := Some 6%positive |}]>
          (<[4%positive := OArray [JString "BrowserTracing"]]>
             (<[5%positive := OArray [JString "InboundFilters";
                                      JString "BrowserTracing"]]>
                (<[6%positive :=
                     OArray [JObject [("name", JString "npm:@sentry/browser");
                                      ("version", JString "7.1.0")]]]>
                   (<[7%positive := OEvent sample_error]>
                      (<[8%positive :=
                           OSession [("sid", JString "s-1");
                                     ("status", JString "ok")]]>
                         (<[9%positive :=
                              OSession [("aggregates", JArray [])]]> ∅)))))))).

Definition sample_metadata : option SdkMetadata :=
  Some {| md_sdk := Some 3%positive |}.


(** ** The event as an object *)

(** The key of an optional field, when the field is there. *)
Definition key_if {A : Type} (k : string) (field : option A) : list string :=
  match field with Some _ => [k] | None => [] end.

(** The keys that an event object has: those of the fields that are there,
    and those of its other fields. *)
Definition own_keys (e : Event) : list string :=
  key_if "event_id" (event_id e) ++ key_if "type" (type e)
  ++ key_if "sdk" (sdk e)
  ++ key_if "sdkProcessingMetadata" (sdkProcessingMetadata e)
  ++ key_if "contexts" (contexts e) ++ key_if "environment" (environment e)
  ++ key_if "release" (release e) ++ key_if "transaction" (transaction e)
  ++ key_if "user" (user e) ++ map fst (event_other e).

(** [createEventEnvelope] with the call of line 84 to
    [createEventEnvelopeHeaders] replaced by a call to [build]: what comes
    before the call and what comes after it are those of the source. *)
Definition createEventEnvelope_with {imports : Imports}
    (build : loc -> option js_object -> option string -> DsnComponents
             -> M js_object)
    (event : loc) (dsn : DsnComponents)
    (metadata : option SdkMetadata) (tunnel : option string) : M Envelope :=
  let* sdkInfo := getSdkMetadataForEnvelopeHeader metadata in
  let* e := load_event event in
  let eventType := or_else (option_map literal (type e)) "event" in
  let transactionSampling :=
    match sdkProcessingMetadata e with
    | Some m => transactionSampling m
    | None => None
    end in
  let samplingMethod :=
    match transactionSampling with Some t => method t | None => None end in
  let sampleRate :=
    match transactionSampling with Some t => rate t | None => None end in
  enhanceEventWithSdkInfo event (metadata_sdk metadata) ;;
  (* delete event.sdkProcessingMetadata; *)
  let* e := load_event event in
  store event (OEvent (delete_sdkProcessingMetadata e)) ;;
  let* envelopeHeaders := build event sdkInfo tunnel dsn in
  let eventItem :=
    ([("type", JString eventType);
      ("sample_rates",
       JArray [JObject [("id", of_string samplingMethod);
                        ("rate", of_number sampleRate)]])],
     event) in
  ret (createEnvelope envelopeHeaders [eventItem]).

(** ** Further properties: what they are stated with *)

(** The value of the [sdk] key and of the [dsn] key of envelope headers
    built in store [h]: [{ name, version }] of the descriptor as it is in
    [h], and [dsnToString(dsn)]. *)
Definition header_sdk_dsn_values {imports : Imports} (h : heap)
    (metadata : option SdkMetadata) (tunnel : option string)
    (dsn : DsnComponents) (headers : js_object) : Prop :=
  get_prop "sdk" headers
  = match metadata_sdk metadata with
    | Some info =>
        Some (JObject [("name", of_string (name (descriptor h info)));
                       ("version", of_string (version (descriptor h info)))])
    | None => None
    end /\
  get_prop "dsn" headers
  = (if truthy tunnel then Some (JString (dsnToString dsn)) else None).

(** The keys of an object, in their order. *)
Definition keys (o : js_object) : list string := map fst o.

(** [n] merges of the same descriptor into the same event, one after the
    other. *)
Fixpoint merge_times (n : nat) (event info : loc) : M loc :=
  match n with
  | 0 => ret event
  | S k =>
      enhanceEventWithSdkInfo event (Some info) ;; merge_times k event info
  end.

(** What the [user] key of the trace object holds for an event. *)
Definition trace_user_is (u : option User) (fields : js_object) : Prop :=
  match u with
  | None => get_prop "user" fields = None
  | Some u =>
      exists inner : js_object,
        get_prop "user" fields = Some (JObject inner) /\
        get_prop "id" inner = JString <$> user_id u /\
        get_prop "segment" inner = JString <$> user_segment u /\
        sublist (keys inner) ["id"; "segment"]
  end.

(** What [dropUndefinedKeys] makes of the value of a key: nothing when the
    value is [undefined]. *)
Definition kept (v : jsval) : option jsval :=
  match v with
  | JUndefined => None
  | _ => Some (dropUndefinedKeys v)
  end.

(** ** Proofs: the store *)

Lemma bind_Some {A B} (m : M A) (k : A -> M B) (h h1 : heap) (a : A) :
  m h = Some (a, h1) -> bind m k h = k a h1.
Proof. intros Hm. unfold bind. now rewrite Hm. Qed.

Lemma js_or_same (a : option string) : js_or a a = a.
Proof. unfold js_or. now destruct (truthy a). Qed.

Lemma js_or_idem (a b : option string) : js_or (js_or a b) b = js_or a b.
Proof.
  unfold js_or. destruct (truthy a) eqn:Ha.
  - now rewrite Ha.
  - now destruct (truthy b).
Qed.

Lemma js_or_truthy (a b : option string) : truthy a = true -> js_or a b = a.
Proof. unfold js_or. now intros ->. Qed.

Lemma js_or_falsy (a b : option string) : truthy a = false -> js_or a b = b.
Proof. unfold js_or. now intros ->. Qed.

Lemma elements_or_empty_run (h : heap) (a : option loc) (xs : list jsval) :
  array_at h a xs -> elements_or_empty a h = Some (xs, h).
Proof.
  destruct a as [l|]; simpl.
  - intros Hl. unfold load_array. now rewrite Hl.
  - now intros ->.
Qed.

Lemma array_at_insert (h : heap) (a : option loc) (xs : list jsval)
    (l : loc) (o : obj) :
  array_at h a xs -> (forall ys, h !! l <> Some (OArray ys)) ->
  array_at (<[l := o]> h) a xs.
Proof.
  destruct a as [l'|]; simpl; [|done].
  intros Hl' Hl. rewrite lookup_insert_ne; [done|].
  intros ->. now apply (Hl xs).
Qed.

Lemma fresh_lookup (h : heap) : h !! fresh (dom h) = None.
Proof. apply not_elem_of_dom. apply is_fresh. Qed.

Lemma fresh_ne (h : heap) (l : loc) (o : obj) :
  h !! l = Some o -> l <> fresh (dom h).
Proof. intros Hl ->. rewrite fresh_lookup in Hl. discriminate. Qed.

Lemma array_at_alloc (h : heap) (a : option loc) (xs : list jsval) (o : obj) :
  array_at h a xs -> array_at (<[fresh (dom h) := o]> h) a xs.
Proof.
  intros Ha. apply array_at_insert; [done|].
  intros ys. now rewrite fresh_lookup.
Qed.

(** ** Proofs: the statements of the merger *)

Section Statements.

Variables (h : heap) (event info s : loc) (e : Event) (cur d : SdkInfo).
Hypothesis Hevent : h !! event = Some (OEvent e).
Hypothesis Hsdk : sdk e = Some s.
Hypothesis Hcur : h !! s = Some (OSdkInfo cur).
Hypothesis Hinfo : h !! info = Some (OSdkInfo d).

Lemma event_sdk_run : event_sdk event h = Some (s, h).
Proof.
  unfold event_sdk, bind, load_event. rewrite Hevent, Hsdk. reflexivity.
Qed.

Lemma assign_name_run :
  assign_name event info h
  = Some (tt, <[s := OSdkInfo (with_name (js_or (name cur) (name d)) cur)]> h).
Proof.
  unfold assign_name. rewrite (bind_Some _ _ _ _ _ event_sdk_run).
  unfold bind, load_sdk, store. now rewrite Hcur, Hinfo.
Qed.

Lemma assign_version_run :
  assign_version event info h
  = Some (tt,
          <[s := OSdkInfo (with_version (js_or (version cur) (version d)) cur)]> h).
Proof.
  unfold assign_version. rewrite (bind_Some _ _ _ _ _ event_sdk_run).
  unfold bind, load_sdk, store. now rewrite Hcur, Hinfo.
Qed.

Lemma assign_integrations_run (xs ys : list jsval) :
  array_at h (integrations cur) xs -> array_at h (integrations d) ys ->
  assign_integrations event info h
  = Some (tt,
          <[s := OSdkInfo (with_integrations (Some (fresh (dom h))) cur)]>
            (<[fresh (dom h) := OArray (xs ++ ys)]> h)).
Proof.
  intros Hxs Hys. unfold assign_integrations.
  rewrite (bind_Some _ _ _ _ _ event_sdk_run).
  unfold bind at 1. unfold load_sdk at 1. rewrite Hcur.
  rewrite (bind_Some _ _ _ _ _ (elements_or_empty_run _ _ _ Hxs)).
  unfold bind at 1. unfold load_sdk at 1. rewrite Hinfo.
  rewrite (bind_Some _ _ _ _ _ (elements_or_empty_run _ _ _ Hys)).
  unfold bind, alloc, load_sdk, store. cbn zeta.
  rewrite lookup_insert_ne by (symmetry; eapply fresh_ne; eassumption).
  now rewrite Hcur.
Qed.

Lemma assign_packages_run (xs ys : list jsval) :
  array_at h (packages cur) xs -> array_at h (packages d) ys ->
  assign_packages event info h
  = Some (tt,
          <[s := OSdkInfo (with_packages (Some (fresh (dom h))) cur)]>
            (<[fresh (dom h) := OArray (xs ++ ys)]> h)).
Proof.
  intros Hxs Hys. unfold assign_packages.
  rewrite (bind_Some _ _ _ _ _ event_sdk_run).
  unfold bind at 1. unfold load_sdk at 1. rewrite Hcur.
  rewrite (bind_Some _ _ _ _ _ (elements_or_empty_run _ _ _ Hxs)).
  unfold bind at 1. unfold load_sdk at 1. rewrite Hinfo.
  rewrite (bind_Some _ _ _ _ _ (elements_or_empty_run _ _ _ Hys)).
  unfold bind, alloc, load_sdk, store. cbn zeta.
  rewrite lookup_insert_ne by (symmetry; eapply fresh_ne; eassumption).
  now rewrite Hcur.
Qed.

End Statements.

(** The four assignments in sequence. *)

Lemma not_array_sdk (h : heap) (s : loc) (i : SdkInfo) :
  h !! s = Some (OSdkInfo i) -> forall ys, h !! s <> Some (OArray ys).
Proof. intros -> ys. discriminate. Qed.

Lemma merge_statements_run (h : heap) (event info s : loc) (e : Event)
    (cur d : SdkInfo) (xs ys ps qs : list jsval) :
  h !! event = Some (OEvent e) ->
  sdk e = Some s ->
  h !! s = Some (OSdkInfo cur) ->
  h !! info = Some (OSdkInfo d) ->
  array_at h (integrations cur) xs -> array_at h (integrations d) ys ->
  array_at h (packages cur) ps -> array_at h (packages d) qs ->
  exists a1 a2 : loc,
    h !! a1 = None /\ h !! a2 = None /\ a1 <> a2 /\
    merge_statements event info h
    = Some (event,
            <[s := OSdkInfo (merged cur d a1 a2)]>
              (<[a2 := OArray (ps ++ qs)]> (<[a1 := OArray (xs ++ ys)]> h))).
Proof.
  intros Hevent Hsdk Hcur Hinfo Hxs Hys Hps Hqs.
  assert (Hes : event <> s) by (intros ->; congruence).
  pose proof (not_array_sdk _ _ _ Hcur) as Hns.
  (* after the name statement *)
  set (cur1 := with_name (js_or (name cur) (name d)) cur).
  set (h1 := <[s := OSdkInfo cur1]> h).
  assert (H1e : h1 !! event = Some (OEvent e))
    by (unfold h1; now rewrite lookup_insert_ne).
  assert (H1s : h1 !! s = Some (OSdkInfo cur1))
    by (unfold h1; now rewrite lookup_insert_eq).
  assert (H1d : exists d1, h1 !! info = Some (OSdkInfo d1) /\
                 version d1 = version d /\
                 integrations d1 = integrations d /\
                 packages d1 = packages d).
  { destruct (decide (info = s)) as [->|Hne].
    - exists cur1. split; [done|].
      assert (d = cur) by congruence. now subst d.
    - exists d. unfold h1. now rewrite lookup_insert_ne. }
  destruct H1d as (d1 & H1d & Hv1 & Hi1 & Hp1).
  (* after the version statement *)
  set (cur2 := with_version (js_or (version cur1) (version d1)) cur1).
  set (h2 := <[s := OSdkInfo cur2]> h1).
  assert (H2e : h2 !! event = Some (OEvent e))
    by (unfold h2; now rewrite lookup_insert_ne).
  assert (H2s : h2 !! s = Some (OSdkInfo cur2))
    by (unfold h2; now rewrite lookup_insert_eq).
  assert (H2d : exists d2, h2 !! info = Some (OSdkInfo d2) /\
                 integrations d2 = integrations d /\
                 packages d2 = packages d).
  { destruct (decide (info = s)) as [->|Hne].
    - exists cur2. split; [done|].
      assert (d = cur) by congruence. now subst d.
    - exists d1. unfold h2. now rewrite lookup_insert_ne. }
  destruct H2d as (d2 & H2d & Hi2 & Hp2).
  assert (Hh2 : forall l o, h !! l = Some o -> is_Some (h2 !! l)).
  { intros l o Hl. unfold h2, h1.
    destruct (decide (s = l)) as [->|Hne].
    - rewrite lookup_insert_eq. eauto.
    - rewrite !lookup_insert_ne by done. eauto. }
  assert (Harr2 : forall a zs, array_at h a zs -> array_at h2 a zs).
  { intros a zs Ha. unfold h2. apply array_at_insert.
    - unfold h1. now apply array_at_insert.
    - intros ws. rewrite H1s. discriminate. }
  (* after the integrations statement *)
  set (a1 := fresh (dom h2)).
  set (cur3 := with_integrations (Some a1) cur2).
  set (h3 := <[s := OSdkInfo cur3]> (<[a1 := OArray (xs ++ ys)]> h2)).
  assert (Ha1s : a1 <> s) by (symmetry; eapply fresh_ne; exact H2s).
  assert (Ha1e : a1 <> event) by (symmetry; eapply fresh_ne; exact H2e).
  assert (H3e : h3 !! event = Some (OEvent e))
    by (unfold h3; now rewrite !lookup_insert_ne).
  assert (H3s : h3 !! s = Some (OSdkInfo cur3))
    by (unfold h3; now rewrite lookup_insert_eq).
  assert (H3d : exists d3, h3 !! info = Some (OSdkInfo d3) /\
                 packages d3 = packages d).
  { destruct (decide (info = s)) as [->|Hne].
    - exists cur3. split; [done|].
      assert (d = cur) by congruence. now subst d.
    - exists d2. unfold h3. rewrite !lookup_insert_ne; [done| |done].
      symmetry. eapply fresh_ne. exact H2d. }
  destruct H3d as (d3 & H3d & Hp3).
  assert (Harr3 : forall a zs, array_at h a zs -> array_at h3 a zs).
  { intros a zs Ha. unfold h3. apply array_at_insert.
    - apply array_at_alloc. now apply Harr2.
    - intros ws. rewrite lookup_insert_ne by done. rewrite H2s. discriminate. }
  (* after the packages statement *)
  set (a2 := fresh (dom h3)).
  set (cur4 := with_packages (Some a2) cur3).
  set (h4 := <[s := OSdkInfo cur4]> (<[a2 := OArray (ps ++ qs)]> h3)).
  assert (Ha2s : a2 <> s) by (symmetry; eapply fresh_ne; exact H3s).
  assert (Ha21 : a2 <> a1).
  { symmetry. eapply fresh_ne with (o := OArray (xs ++ ys)).
    unfold h3. rewrite lookup_insert_ne by done. now rewrite lookup_insert_eq. }
  assert (Hf1 : h !! a1 = None).
  { destruct (h !! a1) as [o|] eqn:Hl; [|done].
    destruct (Hh2 _ _ Hl) as [o' Ho']. unfold a1 in Ho'.
    now rewrite fresh_lookup in Ho'. }
  assert (Hf2 : h !! a2 = None).
  { destruct (h !! a2) as [o|] eqn:Hl; [|done].
    destruct (Hh2 _ _ Hl) as [o' Ho'].
    assert (is_Some (h3 !! a2)) as [o'' Ho''].
    { unfold h3. rewrite !lookup_insert_ne by done. eauto. }
    unfold a2 in Ho''. now rewrite fresh_lookup in Ho''. }
  exists a1, a2. split; [done|]. split; [done|]. split; [done|].
  unfold merge_statements.
  rewrite (bind_Some _ _ _ _ _
             (assign_name_run h event info s e cur d Hevent Hsdk Hcur Hinfo)).
  fold cur1 h1.
  rewrite (bind_Some _ _ _ _ _
             (assign_version_run h1 event info s e cur1 d1 H1e Hsdk H1s H1d)).
  fold cur2 h2.
  rewrite (bind_Some _ _ _ _ _
             (assign_integrations_run h2 event info s e cur2 d2 H2e Hsdk H2s H2d
                xs ys
                (Harr2 _ _ Hxs)
                (eq_rect_r (fun a => array_at h2 a ys) (Harr2 _ _ Hys) Hi2))).
  fold a1 cur3 h3.
  rewrite (bind_Some _ _ _ _ _
             (assign_packages_run h3 event info s e cur3 d3 H3e Hsdk H3s H3d
                ps qs
                (Harr3 _ _ Hps)
                (eq_rect_r (fun a => array_at h3 a qs) (Harr3 _ _ Hqs) Hp3))).
  fold a2 cur4 h4.
  unfold ret. f_equal. f_equal.
  apply map_eq. intros l.
  unfold h4, h3, h2, h1.
  destruct (decide (l = s)) as [->|Hls].
  - rewrite !lookup_insert_eq. f_equal. f_equal.
    unfold cur4, cur3, cur2, cur1, merged; simpl. now rewrite Hv1.
  - rewrite (lookup_insert_ne _ s l) by done.
    rewrite (lookup_insert_ne _ s l) by done.
    destruct (decide (l = a2)) as [->|Hl2].
    + now rewrite !lookup_insert_eq.
    + rewrite (lookup_insert_ne _ a2 l) by done.
      rewrite (lookup_insert_ne _ a2 l) by done.
      rewrite (lookup_insert_ne _ s l) by done.
      destruct (decide (l = a1)) as [->|Hl1].
      * now rewrite !lookup_insert_eq.
      * rewrite (lookup_insert_ne _ a1 l) by done.
        rewrite (lookup_insert_ne _ a1 l) by done.
        now rewrite !lookup_insert_ne by done.
Qed.

Lemma valid_array_at (h : heap) (a : option loc) :
  valid_array h a = true -> array_at h a (elements h a).
Proof.
  destruct a as [l|]; simpl; [|done].
  destruct (h !! l) as [[| |xs|]|]; done.
Qed.

Lemma valid_sdk_inv (h : heap) (s : loc) :
  valid_sdk h s = true ->
  exists i, h !! s = Some (OSdkInfo i) /\ descriptor h s = i /\
    valid_array h (integrations i) = true /\
    valid_array h (packages i) = true.
Proof.
  unfold valid_sdk, descriptor.
  destruct (h !! s) as [[|i| |]|]; try done.
  intros [? ?]%andb_true_iff. eauto.
Qed.

Lemma assign_sdk_run (h : heap) (event : loc) (e : Event) :
  h !! event = Some (OEvent e) ->
  valid_event h event = true ->
  exists s : loc,
    ((sdk e = Some s /\ h !! s = Some (OSdkInfo (sdk_record h event))) \/
     (sdk e = None /\ h !! s = None)) /\
    valid_array h (integrations (sdk_record h event)) = true /\
    valid_array h (packages (sdk_record h event)) = true /\
    assign_sdk event h
    = Some (tt, <[event := OEvent (with_sdk (Some s) e)]>
                  (<[s := OSdkInfo (sdk_record h event)]> h)).
Proof.
  intros Hevent Hvalid. unfold valid_event in Hvalid.
  unfold sdk_record, assign_sdk, bind, load_event. rewrite Hevent in *.
  destruct (sdk e) as [s|] eqn:Hsdk.
  - destruct (valid_sdk_inv _ _ Hvalid) as (i & Hs & Hd & Hi & Hp).
    exists s. rewrite Hd. split; [left; done|]. split; [done|]. split; [done|].
    unfold ret, store. now rewrite (insert_id h s).
  - exists (fresh (dom h)). split; [right; split; [done|apply fresh_lookup]|].
    split; [done|]. split; [done|]. reflexivity.
Qed.

Lemma enhance_run (h : heap) (event info : loc) (e : Event) :
  h !! event = Some (OEvent e) ->
  valid_event h event = true ->
  valid_sdk h info = true ->
  exists s a1 a2 : loc,
    placed h e s a1 a2 /\
    enhanceEventWithSdkInfo event (Some info) h
    = Some (event, enhanced h event info e s a1 a2).
Proof.
  intros Hevent Hvalid Hinfo.
  destruct (assign_sdk_run _ _ _ Hevent Hvalid) as (s & Hs & Hci & Hcp & Hrun).
  destruct (valid_sdk_inv _ _ Hinfo) as (d & Hd & Hdd & Hdi & Hdp).
  set (cur := sdk_record h event) in *.
  set (h0 := <[event := OEvent (with_sdk (Some s) e)]>
               (<[s := OSdkInfo cur]> h)) in *.
  assert (Hse : s <> event).
  { intros ->. destruct Hs as [[_ Hs]|[_ Hs]]; congruence. }
  assert (Hsi : h !! s = None -> s <> info) by (intros Hn ->; congruence).
  assert (Hie : info <> event) by (intros ->; congruence).
  assert (H0e : h0 !! event = Some (OEvent (with_sdk (Some s) e)))
    by (unfold h0; now rewrite lookup_insert_eq).
  assert (H0s : h0 !! s = Some (OSdkInfo cur)).
  { unfold h0. rewrite lookup_insert_ne by done. now rewrite lookup_insert_eq. }
  assert (H0d : h0 !! info = Some (OSdkInfo d)).
  { unfold h0. rewrite lookup_insert_ne by done.
    destruct Hs as [[_ Hs]|[_ Hs]].
    - destruct (decide (s = info)) as [->|Hne].
      + rewrite lookup_insert_eq. congruence.
      + now rewrite lookup_insert_ne.
    - rewrite lookup_insert_ne; [done|now apply Hsi]. }
  assert (Harr : forall a, valid_array h a = true ->
                 array_at h0 a (elements h a)).
  { intros a Ha. unfold h0. apply array_at_insert.
    - apply array_at_insert; [now apply valid_array_at|].
      intros ys. destruct Hs as [[_ Hs]|[_ Hs]]; rewrite Hs; discriminate.
    - intros ys. rewrite lookup_insert_ne by done. rewrite Hevent. discriminate. }
  destruct (merge_statements_run h0 event info s (with_sdk (Some s) e) cur d
              _ _ _ _ H0e eq_refl H0s H0d
              (Harr _ Hci) (Harr _ Hdi) (Harr _ Hcp) (Harr _ Hdp))
    as (a1 & a2 & Hf1 & Hf2 & Ha12 & Hmerge).
  assert (Hlow : forall l, h0 !! l = None -> h !! l = None /\ l <> s /\ l <> event).
  { intros l Hl. unfold h0 in Hl.
    destruct (decide (l = event)) as [->|Hle];
      [now rewrite lookup_insert_eq in Hl|].
    rewrite lookup_insert_ne in Hl by done.
    destruct (decide (l = s)) as [->|Hls];
      [now rewrite lookup_insert_eq in Hl|].
    now rewrite lookup_insert_ne in Hl. }
  destruct (Hlow _ Hf1) as (Hh1 & H1s & H1e).
  destruct (Hlow _ Hf2) as (Hh2 & H2s & H2e).
  exists s, a1, a2. split.
  - unfold placed. repeat split; try done.
    destruct Hs as [[Hs _]|Hs]; [now left|now right].
  - unfold enhanceEventWithSdkInfo.
    rewrite (bind_Some _ _ _ _ _ Hrun). fold h0.
    change (merge_statements event info h0
            = Some (event, enhanced h event info e s a1 a2)).
    rewrite Hmerge. f_equal. f_equal.
    unfold enhanced. fold cur. rewrite Hdd.
    apply map_eq. intros l. unfold h0.
    destruct (decide (l = s)) as [->|Hls]; [now rewrite !lookup_insert_eq|].
    rewrite (lookup_insert_ne _ s l) by done.
    rewrite (lookup_insert_ne _ s l) by done.
    destruct (decide (l = a2)) as [->|Hl2]; [now rewrite !lookup_insert_eq|].
    rewrite (lookup_insert_ne _ a2 l) by done.
    rewrite (lookup_insert_ne _ a2 l) by done.
    destruct (decide (l = a1)) as [->|Hl1]; [now rewrite !lookup_insert_eq|].
    rewrite (lookup_insert_ne _ a1 l) by done.
    rewrite (lookup_insert_ne _ a1 l) by done.
    destruct (decide (l = event)) as [->|Hle]; [now rewrite !lookup_insert_eq|].
    now rewrite !lookup_insert_ne by done.
Qed.

(** ** Proofs: the store after the merge *)

Section Enhanced.

Variables (h : heap) (event info : loc) (e : Event) (s a1 a2 : loc).
Hypothesis Hevent : h !! event = Some (OEvent e).
Hypothesis Hvalid : valid_event h event = true.
Hypothesis Hinfo : valid_sdk h info = true.
Hypothesis Hplaced : placed h e s a1 a2.

Lemma placed_sdk_ne_event : s <> event.
Proof.
  destruct Hplaced as ([Hs|[_ Hs]] & _); [|congruence].
  unfold valid_event in Hvalid. rewrite Hevent, Hs in Hvalid.
  destruct (valid_sdk_inv _ _ Hvalid) as (i & Hi & _). congruence.
Qed.

Lemma placed_fresh_ne (l : loc) (o : obj) :
  h !! l = Some o -> l <> a1 /\ l <> a2.
Proof.
  destruct Hplaced as (_ & H1 & H2 & _). split; intros ->; congruence.
Qed.

Lemma enhanced_event :
  enhanced h event info e s a1 a2 !! event
  = Some (OEvent (with_sdk (Some s) e)).
Proof.
  pose proof placed_sdk_ne_event.
  destruct (placed_fresh_ne _ _ Hevent).
  unfold enhanced. rewrite !lookup_insert_ne by done.
  now rewrite lookup_insert_eq.
Qed.

Lemma enhanced_sdk :
  enhanced h event info e s a1 a2 !! s
  = Some (OSdkInfo (merged (sdk_record h event) (descriptor h info) a1 a2)).
Proof. unfold enhanced. now rewrite lookup_insert_eq. Qed.

Lemma enhanced_integrations :
  enhanced h event info e s a1 a2 !! a1
  = Some (OArray (elements h (integrations (sdk_record h event))
                  ++ elements h (integrations (descriptor h info)))).
Proof.
  destruct Hplaced as (_ & _ & _ & H12 & Hs1 & Hs2).
  unfold enhanced. rewrite !lookup_insert_ne by done.
  now rewrite lookup_insert_eq.
Qed.

Lemma enhanced_packages :
  enhanced h event info e s a1 a2 !! a2
  = Some (OArray (elements h (packages (sdk_record h event))
                  ++ elements h (packages (descriptor h info)))).
Proof.
  destruct Hplaced as (_ & _ & _ & H12 & Hs1 & Hs2).
  unfold enhanced. rewrite lookup_insert_ne by done.
  now rewrite lookup_insert_eq.
Qed.

(** Every object of the old store other than the event and its [sdk]
    record is left as it was. *)
Lemma enhanced_frame (l : loc) (o : obj) :
  h !! l = Some o -> l <> event -> sdk e <> Some l ->
  enhanced h event info e s a1 a2 !! l = Some o.
Proof.
  intros Hl Hle Hls.
  destruct (placed_fresh_ne _ _ Hl).
  assert (l <> s).
  { intros ->. destruct Hplaced as ([Hs|[_ Hs]] & _); congruence. }
  unfold enhanced. now rewrite !lookup_insert_ne by done.
Qed.

Lemma enhanced_sdk_record :
  sdk_record (enhanced h event info e s a1 a2) event
  = merged (sdk_record h event) (descriptor h info) a1 a2.
Proof.
  unfold sdk_record at 1. rewrite enhanced_event. simpl.
  unfold descriptor at 1. now rewrite enhanced_sdk.
Qed.

Lemma enhanced_elements_old (a : option loc) :
  valid_array h a = true ->
  elements (enhanced h event info e s a1 a2) a = elements h a.
Proof.
  destruct a as [l|]; simpl; [|done].
  destruct (h !! l) as [[| |xs|]|] eqn:Hl; try done. intros _.
  rewrite (enhanced_frame l (OArray xs)); try done.
  - intros ->. congruence.
  - intros Hs. unfold valid_event in Hvalid. rewrite Hevent, Hs in Hvalid.
    destruct (valid_sdk_inv _ _ Hvalid) as (i & Hi & _). congruence.
Qed.

Lemma enhanced_valid_array_old (a : option loc) :
  valid_array h a = true ->
  valid_array (enhanced h event info e s a1 a2) a = true.
Proof.
  destruct a as [l|]; simpl; [|done].
  destruct (h !! l) as [[| |xs|]|] eqn:Hl; try done. intros _.
  rewrite (enhanced_frame l (OArray xs)); try done.
  - intros ->. congruence.
  - intros Hs. unfold valid_event in Hvalid. rewrite Hevent, Hs in Hvalid.
    destruct (valid_sdk_inv _ _ Hvalid) as (i & Hi & _). congruence.
Qed.

Lemma enhanced_valid_sdk :
  valid_sdk (enhanced h event info e s a1 a2) s = true.
Proof.
  unfold valid_sdk. rewrite enhanced_sdk. simpl.
  now rewrite enhanced_integrations, enhanced_packages.
Qed.

Lemma enhanced_valid_event :
  valid_event (enhanced h event info e s a1 a2) event = true.
Proof.
  unfold valid_event. rewrite enhanced_event. simpl. apply enhanced_valid_sdk.
Qed.

(** The descriptor after the merge: the event's own [sdk] record when the two
    are one object, and what it was otherwise. *)
Lemma enhanced_descriptor :
  (info = s /\
   descriptor (enhanced h event info e s a1 a2) info
   = merged (sdk_record h event) (descriptor h info) a1 a2) \/
  (sdk e <> Some info /\
   descriptor (enhanced h event info e s a1 a2) info = descriptor h info).
Proof.
  destruct (valid_sdk_inv _ _ Hinfo) as (d & Hd & Hdd & _).
  destruct (decide (info = s)) as [Heq|Hne].
  - left. split; [done|].
    transitivity (descriptor (enhanced h event info e s a1 a2) s); [now f_equal|].
    unfold descriptor. now rewrite enhanced_sdk.
  - right.
    assert (Hsi : sdk e <> Some info).
    { intros Hs. destruct Hplaced as ([Hs'|[Hs' _]] & _); congruence. }
    split; [done|]. unfold descriptor at 1.
    rewrite (enhanced_frame info (OSdkInfo d)); try done.
    intros ->. congruence.
Qed.

Lemma enhanced_valid_info :
  valid_sdk (enhanced h event info e s a1 a2) info = true.
Proof.
  destruct (valid_sdk_inv _ _ Hinfo) as (d & Hd & Hdd & Hdi & Hdp).
  destruct (decide (info = s)) as [Heq|Hne].
  { transitivity (valid_sdk (enhanced h event info e s a1 a2) s);
      [now f_equal|apply enhanced_valid_sdk]. }
  unfold valid_sdk. rewrite (enhanced_frame info (OSdkInfo d)); try done.
  - now rewrite !enhanced_valid_array_old.
  - intros ->. congruence.
  - intros Hs. destruct Hplaced as ([Hs'|[Hs' _]] & _); congruence.
Qed.

End Enhanced.

(** ** The SdkMetadata merger *)

Lemma valid_event_inv (h : heap) (event : loc) :
  valid_event h event = true -> exists e, h !! event = Some (OEvent e).
Proof.
  unfold valid_event. destruct (h !! event) as [[e| | |]|]; try done. eauto.
Qed.

Lemma enhance_none (h : heap) (event : loc) :
  enhanceEventWithSdkInfo event None h = Some (event, h).
Proof. reflexivity. Qed.

Lemma enhance_once (h : heap) (event info : loc) (e : Event) :
  h !! event = Some (OEvent e) ->
  valid_event h event = true -> valid_sdk h info = true ->
  exists (h1 : heap) (s a1 a2 : loc),
    enhanceEventWithSdkInfo event (Some info) h = Some (event, h1) /\
    placed h e s a1 a2 /\ h1 = enhanced h event info e s a1 a2 /\
    valid_event h1 event = true /\ valid_sdk h1 info = true /\
    sdk_record h1 event
    = merged (sdk_record h event) (descriptor h info) a1 a2 /\
    sdk_integrations h1 event
    = sdk_integrations h event ++ elements h (integrations (descriptor h info)) /\
    sdk_packages h1 event
    = sdk_packages h event ++ elements h (packages (descriptor h info)).
Proof.
  intros Hevent Hvalid Hinfo.
  destruct (enhance_run _ _ _ _ Hevent Hvalid Hinfo)
    as (s & a1 & a2 & Hplaced & Hrun).
  exists (enhanced h event info e s a1 a2), s, a1, a2.
  pose proof (enhanced_sdk_record h event info e s a1 a2
                Hevent Hvalid Hplaced) as Hrec.
  split; [done|]. split; [done|]. split; [done|].
  split; [now apply enhanced_valid_event|].
  split; [now apply enhanced_valid_info|].
  split; [done|]. split.
  - unfold sdk_integrations at 1. rewrite Hrec. simpl.
    now rewrite (enhanced_integrations h event info e s a1 a2 Hplaced).
  - unfold sdk_packages at 1. rewrite Hrec. simpl.
    now rewrite (enhanced_packages h event info e s a1 a2 Hplaced).
Qed.

(** C1 (as amended): [enhanceEventWithSdkInfo] returns the event and leaves
    the store as it is when no descriptor is supplied.  With a descriptor,
    [sdk.name] and [sdk.version] keep a value that is truthy and take the
    descriptor's value when they are absent or the empty string; the
    descriptor's [integrations] and [packages] are appended after the entries
    the event already has, as they are and in their order.  A second merge
    leaves name and version as the first one set them and appends the
    descriptor's lists once more: the same lists, unless the descriptor is
    the event's own [sdk] record. *)
Theorem enhanceEventWithSdkInfo_merges (h : heap) (event info : loc) :
  valid_event h event = true -> valid_sdk h info = true ->
  enhanceEventWithSdkInfo event None h = Some (event, h) /\
  exists h1 : heap,
    enhanceEventWithSdkInfo event (Some info) h = Some (event, h1) /\
    (truthy (sdk_name h event) = true -> sdk_name h1 event = sdk_name h event) /\
    (truthy (sdk_name h event) = false ->
     sdk_name h1 event = name (descriptor h info)) /\
    (truthy (sdk_version h event) = true ->
     sdk_version h1 event = sdk_version h event) /\
    (truthy (sdk_version h event) = false ->
     sdk_version h1 event = version (descriptor h info)) /\
    sdk_integrations h1 event
    = sdk_integrations h event ++ elements h (integrations (descriptor h info)) /\
    sdk_packages h1 event
    = sdk_packages h event ++ elements h (packages (descriptor h info)) /\
    exists h2 : heap,
      enhanceEventWithSdkInfo event (Some info) h1 = Some (event, h2) /\
      sdk_name h2 event = sdk_name h1 event /\
      sdk_version h2 event = sdk_version h1 event /\
      sdk_integrations h2 event
      = sdk_integrations h1 event
        ++ elements h1 (integrations (descriptor h1 info)) /\
      sdk_packages h2 event
      = sdk_packages h1 event ++ elements h1 (packages (descriptor h1 info)) /\
      forall e : Event,
        h !! event = Some (OEvent e) -> sdk e <> Some info ->
        sdk_integrations h2 event
        = (sdk_integrations h event
           ++ elements h (integrations (descriptor h info)))
          ++ elements h (integrations (descriptor h info)) /\
        sdk_packages h2 event
        = (sdk_packages h event ++ elements h (packages (descriptor h info)))
          ++ elements h (packages (descriptor h info)).
Proof.
  intros Hvalid Hinfo. split; [apply enhance_none|].
  destruct (valid_event_inv _ _ Hvalid) as (e & Hevent).
  destruct (enhance_once _ _ _ _ Hevent Hvalid Hinfo)
    as (h1 & s & a1 & a2 & Hrun & Hplaced & Hh1 & Hvalid1 & Hinfo1
        & Hrec & Hints & Hpkgs).
  destruct (valid_event_inv _ _ Hvalid1) as (e1 & Hevent1).
  destruct (enhance_once _ _ _ _ Hevent1 Hvalid1 Hinfo1)
    as (h2 & s' & b1 & b2 & Hrun2 & _ & _ & _ & _ & Hrec2 & Hints2 & Hpkgs2).
  exists h1. split; [done|].
  unfold sdk_name, sdk_version in *. rewrite Hrec. simpl.
  split; [apply js_or_truthy|]. split; [apply js_or_falsy|].
  split; [apply js_or_truthy|]. split; [apply js_or_falsy|].
  split; [done|]. split; [done|].
  exists h2. split; [done|]. rewrite Hrec2, Hrec. simpl.
  assert (Hdesc : (name (descriptor h1 info) = name (descriptor h info) /\
                   version (descriptor h1 info) = version (descriptor h info))
                  \/ descriptor h1 info = sdk_record h1 event).
  { subst h1.
    destruct (enhanced_descriptor h event info e s a1 a2 Hevent Hinfo Hplaced)
      as [[_ Hd]|[_ Hd]].
    - right. now rewrite Hd, Hrec.
    - left. now rewrite Hd. }
  split; [|split; [|split; [done|split; [done|]]]].
  - destruct Hdesc as [[-> _] | ->]; [apply js_or_idem|].
    rewrite Hrec. simpl. apply js_or_same.
  - destruct Hdesc as [[_ ->] | ->]; [apply js_or_idem|].
    rewrite Hrec. simpl. apply js_or_same.
  - intros e' Hevent' Hother.
    assert (e' = e) by congruence. subst e' h1.
    destruct (valid_sdk_inv _ _ Hinfo) as (d & Hd & Hdd & Hdi & Hdp).
    destruct (enhanced_descriptor h event info e s a1 a2 Hevent Hinfo Hplaced)
      as [[Heq _]|[_ Hsame]].
    + destruct Hplaced as ([Hs|[_ Hs]] & _); congruence.
    + rewrite Hints2, Hpkgs2, Hints, Hpkgs, Hsame, Hdd.
      now rewrite !(enhanced_elements_old h event info e s a1 a2
                      Hevent Hvalid Hplaced) by done.
Qed.

Lemma enhanceEventWithSdkInfo_merges_witness :
  enhanceEventWithSdkInfo 1%positive None c1_heap = Some (1%positive, c1_heap) /\
  exists h1 : heap,
    enhanceEventWithSdkInfo 1%positive (Some 3%positive) c1_heap
    = Some (1%positive, h1) /\
    sdk_integrations h1 1%positive
    = [JString "InboundFilters"; JString "InboundFilters"; JString "TryCatch"].
Proof.
  destruct (enhanceEventWithSdkInfo_merges c1_heap 1%positive 3%positive)
    as (Hnone & h1 & Hrun & _ & _ & _ & _ & Hints & _).
  - vm_compute. reflexivity.
  - vm_compute. reflexivity.
  - split; [exact Hnone|]. exists h1. split; [exact Hrun|].
    rewrite Hints. vm_compute. reflexivity.
Defined.

Lemma enhance_c1_heap :
  exists h1 : heap,
    enhanceEventWithSdkInfo 1%positive (Some 3%positive) c1_heap
    = Some (1%positive, h1) /\
    sdk_name h1 1%positive = Some "sentry.javascript.browser".
Proof. eexists. split; vm_compute; reflexivity. Qed.

(** C1 (as stated) fails: an event whose [sdk.name] is present but is the
    empty string gets the descriptor's name. *)
Lemma name_present_but_empty_is_overwritten : ~ name_set_only_if_absent.
Proof.
  intros Hclaim.
  destruct enhance_c1_heap as (h1 & Hrun & Hname).
  assert (Hkept : sdk_name h1 1%positive = Some EmptyString).
  { apply (Hclaim c1_heap h1 1%positive 3%positive EmptyString);
      [vm_compute; reflexivity | vm_compute; reflexivity | exact Hrun
      | vm_compute; reflexivity]. }
  rewrite Hname in Hkept. discriminate.
Qed.

Lemma valid_array_ne_fresh (h : heap) (a : option loc) (l : loc) :
  valid_array h a = true -> h !! l = None -> a <> Some l.
Proof.
  intros Ha Hl ->. simpl in Ha. now rewrite Hl in Ha.
Qed.

(** C10: with a descriptor present, [enhanceEventWithSdkInfo] leaves the
    event with an [sdk] record whose [integrations] and [packages] are two
    arrays that did not exist before the call, also when neither the event
    nor the descriptor had the field (the array is then empty); so neither
    field is what it was before, and an event without an [sdk] record gets a
    new one. *)
Theorem enhanceEventWithSdkInfo_fresh_lists (h : heap) (event info : loc)
    (e : Event) :
  h !! event = Some (OEvent e) ->
  valid_event h event = true -> valid_sdk h info = true ->
  exists (h1 : heap) (s a1 a2 : loc) (i : SdkInfo) (xs ys : list jsval),
    enhanceEventWithSdkInfo event (Some info) h = Some (event, h1) /\
    h1 !! event = Some (OEvent (with_sdk (Some s) e)) /\
    h1 !! s = Some (OSdkInfo i) /\
    integrations i = Some a1 /\ packages i = Some a2 /\
    h1 !! a1 = Some (OArray xs) /\ h1 !! a2 = Some (OArray ys) /\
    h !! a1 = None /\ h !! a2 = None /\ a1 <> a2 /\
    (integrations (sdk_record h event) = None ->
     integrations (descriptor h info) = None -> xs = []) /\
    (packages (sdk_record h event) = None ->
     packages (descriptor h info) = None -> ys = []) /\
    integrations i <> integrations (sdk_record h event) /\
    packages i <> packages (sdk_record h event) /\
    (sdk e = None -> h !! s = None).
Proof.
  intros Hevent Hvalid Hinfo.
  destruct (enhance_once _ _ _ _ Hevent Hvalid Hinfo)
    as (h1 & s & a1 & a2 & Hrun & Hplaced & -> & _).
  destruct (assign_sdk_run _ _ _ Hevent Hvalid) as (_ & _ & Hvi & Hvp & _).
  pose proof Hplaced as (Hs & Hf1 & Hf2 & H12 & _).
  exists (enhanced h event info e s a1 a2), s, a1, a2,
    (merged (sdk_record h event) (descriptor h info) a1 a2).
  eexists. eexists.
  split; [exact Hrun|].
  split; [now apply enhanced_event|].
  split; [apply enhanced_sdk|].
  split; [reflexivity|]. split; [reflexivity|].
  split; [now apply enhanced_integrations|].
  split; [now apply enhanced_packages|].
  split; [done|]. split; [done|]. split; [done|].
  split; [now intros -> ->|]. split; [now intros -> ->|].
  split; [simpl; intros Heq; symmetry in Heq;
          exact (valid_array_ne_fresh _ _ _ Hvi Hf1 Heq)|].
  split; [simpl; intros Heq; symmetry in Heq;
          exact (valid_array_ne_fresh _ _ _ Hvp Hf2 Heq)|].
  intros Hnone. destruct Hs as [Hs|[_ Hs]]; [congruence|done].
Qed.

Lemma enhanceEventWithSdkInfo_fresh_lists_witness :
  exists (h1 : heap) (s a1 a2 : loc),
    enhanceEventWithSdkInfo 1%positive (Some 2%positive) c10_heap
    = Some (1%positive, h1) /\
    h1 !! a1 = Some (OArray []) /\ h1 !! a2 = Some (OArray []) /\
    c10_heap !! s = None /\ c10_heap !! a1 = None /\ c10_heap !! a2 = None.
Proof.
  destruct (enhanceEventWithSdkInfo_fresh_lists c10_heap 1%positive 2%positive
              c10_event)
    as (h1 & s & a1 & a2 & i & xs & ys & Hrun & _ & _ & _ & _ & H1 & H2 & Hf1
        & Hf2 & _ & Hxs & Hys & _ & _ & Hs).
  - vm_compute. reflexivity.
  - vm_compute. reflexivity.
  - vm_compute. reflexivity.
  - exists h1, s, a1, a2.
    rewrite (Hxs eq_refl eq_refl) in H1. rewrite (Hys eq_refl eq_refl) in H2.
    split; [exact Hrun|]. split; [exact H1|]. split; [exact H2|].
    split; [exact (Hs eq_refl)|]. split; [exact Hf1|exact Hf2].
Defined.

(** ** Envelopes *)

Lemma getSdkMetadataForEnvelopeHeader_run (h : heap)
    (metadata : option SdkMetadata) :
  valid_metadata h metadata = true ->
  getSdkMetadataForEnvelopeHeader metadata h
  = Some (header_sdkInfo h metadata, h).
Proof.
  unfold valid_metadata, header_sdkInfo, getSdkMetadataForEnvelopeHeader.
  destruct metadata as [[[s|]]|]; simpl; try reflexivity.
  intros Hs. destruct (valid_sdk_inv _ _ Hs) as (i & Hi & Hd & _).
  unfold bind, load_sdk. rewrite Hi, Hd. reflexivity.
Qed.

Lemma or_else_literal (t : option EventType) (d : string) :
  or_else (option_map literal t) d
  = match t with Some x => literal x | None => d end.
Proof.
  destruct t as [[s Hs]|]; simpl; [|reflexivity].
  unfold or_else, js_or. now rewrite Hs.
Qed.

Section EnvelopeProofs.

Context {imports : Imports}.
Variable now : string.

Lemma createEventEnvelopeHeaders_run (h : heap) (event : loc) (e : Event)
    (sdkInfo : option js_object) (tunnel : option string)
    (dsn : DsnComponents) :
  h !! event = Some (OEvent e) ->
  createEventEnvelopeHeaders now event sdkInfo tunnel dsn h
  = Some (event_envelope_headers now e sdkInfo tunnel dsn, h).
Proof.
  intros Hevent. unfold createEventEnvelopeHeaders, bind, load_event.
  now rewrite Hevent.
Qed.

(** The merge as [createEventEnvelope] calls it, with or without a
    descriptor: the event keeps every field but [sdk], and every object of
    the old store other than the event and its [sdk] record stays as it
    was. *)
Lemma enhance_frame (h : heap) (event : loc) (e : Event)
    (metadata : option SdkMetadata) :
  h !! event = Some (OEvent e) ->
  valid_event h event = true -> valid_metadata h metadata = true ->
  exists (h1 : heap) (e1 : Event),
    enhanceEventWithSdkInfo event (metadata_sdk metadata) h = Some (event, h1) /\
    h1 !! event = Some (OEvent e1) /\
    e1 = with_sdk (sdk e1) e /\
    (metadata_sdk metadata = None -> h1 = h) /\
    (forall (l : loc) (o : obj),
        h !! l = Some o -> l <> event -> sdk e <> Some l -> h1 !! l = Some o).
Proof.
  intros Hevent Hvalid Hmeta.
  destruct (metadata_sdk metadata) as [info|] eqn:Hinfo.
  - unfold valid_metadata in Hmeta. rewrite Hinfo in Hmeta.
    destruct (enhance_once _ _ _ _ Hevent Hvalid Hmeta)
      as (h1 & s & a1 & a2 & Hrun & Hplaced & -> & _).
    eexists. eexists. split; [exact Hrun|].
    split; [now apply enhanced_event|].
    split; [reflexivity|]. split; [discriminate|].
    intros l o. now apply enhanced_frame.
  - exists h, e. split; [apply enhance_none|]. split; [done|].
    split; [now destruct e|]. split; [done|]. now intros l o Hl _ _.
Qed.

(** The whole of [createEventEnvelope]: the merge, the deletion, the headers
    from the event as it then is, and the one item. *)
Lemma createEventEnvelope_run (h : heap) (event : loc) (e : Event)
    (dsn : DsnComponents) (metadata : option SdkMetadata)
    (tunnel : option string) :
  h !! event = Some (OEvent e) ->
  valid_event h event = true -> valid_metadata h metadata = true ->
  exists (h1 : heap) (e1 : Event),
    enhanceEventWithSdkInfo event (metadata_sdk metadata) h = Some (event, h1) /\
    h1 !! event = Some (OEvent e1) /\
    e1 = with_sdk (sdk e1) e /\
    (metadata_sdk metadata = None -> h1 = h) /\
    (forall (l : loc) (o : obj),
        h !! l = Some o -> l <> event -> sdk e <> Some l -> h1 !! l = Some o) /\
    createEventEnvelope now event dsn metadata tunnel h
    = Some (createEnvelope
              (event_envelope_headers now (delete_sdkProcessingMetadata e1)
                 (header_sdkInfo h metadata) tunnel dsn)
              [(event_item_header e, event)],
            <[event := OEvent (delete_sdkProcessingMetadata e1)]> h1).
Proof.
  intros Hevent Hvalid Hmeta.
  destruct (enhance_frame _ _ _ _ Hevent Hvalid Hmeta)
    as (h1 & e1 & Hrun & Hevent1 & He1 & Hnone & Hframe).
  exists h1, e1. do 5 (split; [done|]).
  unfold createEventEnvelope.
  rewrite (bind_Some _ _ _ _ _ (getSdkMetadataForEnvelopeHeader_run _ _ Hmeta)).
  unfold bind at 1. unfold load_event at 1. rewrite Hevent.
  rewrite (bind_Some _ _ _ _ _ Hrun).
  unfold bind at 1. unfold load_event at 1. rewrite Hevent1.
  unfold bind at 1. unfold store at 1.
  rewrite (bind_Some _ _ _ _ _
             (createEventEnvelopeHeaders_run _ event
                (delete_sdkProcessingMetadata e1) _ _ _
                (lookup_insert_eq _ _ _))).
  unfold ret, event_item_header. now rewrite or_else_literal.
Qed.

Lemma dropUndefinedKeys_sparse (v : jsval) :
  no_undefined_keys (dropUndefinedKeys v) = true.
Proof.
  induction v as [| | | | |items IHitems|fields IHfields]
    using jsval_nested_ind; try reflexivity.
  - simpl. rewrite forallb_forall. intros x [y [<- Hy]]%in_map_iff.
    rewrite Forall_forall in IHitems. apply IHitems.
    now apply list_elem_of_In.
  - simpl. induction IHfields as [|[k x] r Hx Hr IH]; [reflexivity|].
    simpl in Hx.
    destruct x; try exact IH; simpl in *; rewrite ?Hx; exact IH.
Qed.

Lemma dropUndefinedKeys_top (fields : js_object) (k : string) :
  exists fields',
    dropUndefinedKeys (JObject fields) = JObject fields' /\
    get_prop k fields' <> Some JUndefined.
Proof.
  eexists. split; [reflexivity|].
  induction fields as [|[k' x] r IH]; [discriminate|].
  destruct x; try exact IH; simpl;
    (destruct (String.eqb k k'); [discriminate|exact IH]).
Qed.

Lemma trace_entry_cases (e : Event) (dsn : DsnComponents) :
  (is_transaction e && has_trace_context e = false /\ trace_entry e dsn = None)
  \/ (is_transaction e && has_trace_context e = true /\
      exists fields : js_object,
        trace_entry e dsn
        = Some [("trace", dropUndefinedKeys (JObject fields))]).
Proof.
  unfold trace_entry, has_trace_context.
  destruct (is_transaction e); [|now left].
  destruct (contexts e) as [c|]; [|now left].
  destruct (trace c) as [t|]; [|now left].
  right. split; [reflexivity|]. eexists. reflexivity.
Qed.

Lemma event_envelope_headers_keys (e : Event) (sdkInfo : option js_object)
    (tunnel : option string) (dsn : DsnComponents) :
  let headers := event_envelope_headers now e sdkInfo tunnel dsn in
  get_prop "event_id" headers = Some (of_string (event_id e)) /\
  get_prop "sent_at" headers = Some (JString now) /\
  has_key "sdk" headers = bool_decide (is_Some sdkInfo) /\
  has_key "dsn" headers = truthy tunnel /\
  has_key "trace" headers = is_transaction e && has_trace_context e /\
  forall v, get_prop "trace" headers = Some v ->
    exists fields, trace_entry e dsn
                   = Some [("trace", dropUndefinedKeys (JObject fields))] /\
                   v = dropUndefinedKeys (JObject fields).
Proof.
  unfold event_envelope_headers, sdk_entry, dsn_entry.
  destruct (trace_entry_cases e dsn) as [[-> ->]|[-> [fields ->]]];
    destruct sdkInfo as [i|]; destruct (truthy tunnel); simpl;
    repeat split; try discriminate;
    try (symmetry; apply bool_decide_eq_true; eauto);
    try (symmetry; apply bool_decide_eq_false; intros [? ?]; discriminate);
    intros v [= <-]; exists fields; split; reflexivity.
Qed.

Lemma is_transaction_spec (e : Event) :
  is_transaction e = true <-> is_transaction_type e.
Proof.
  unfold is_transaction, is_transaction_type.
  destruct (type e) as [t|].
  - rewrite String.eqb_eq. split; [eauto|]. now intros (t' & [= <-] & Ht).
  - split; [discriminate|]. now intros (t' & Ht & _).
Qed.

Lemma has_trace_context_spec (e : Event) :
  has_trace_context e = true <-> carries_trace_context e.
Proof.
  unfold has_trace_context, carries_trace_context.
  destruct (contexts e) as [c|].
  - destruct (trace c) as [t|] eqn:Ht.
    + split; [eauto|done].
    + split; [discriminate|]. intros (c' & t' & [= <-] & Ht'). congruence.
  - split; [discriminate|]. now intros (c' & t' & Hc & _).
Qed.

(** C2: the headers that [createEventEnvelopeHeaders] builds have a [trace]
    key exactly when the event's type is 'transaction' and the event carries
    a trace context; and a [trace] value, when there is one, is an object
    that has no key with the value [undefined], at any depth. *)
Theorem createEventEnvelopeHeaders_trace (h : heap) (event : loc) (e : Event)
    (sdkInfo : option js_object) (tunnel : option string)
    (dsn : DsnComponents) :
  h !! event = Some (OEvent e) ->
  exists headers : js_object,
    createEventEnvelopeHeaders now event sdkInfo tunnel dsn h
    = Some (headers, h) /\
    (has_key "trace" headers = true <->
     is_transaction_type e /\ carries_trace_context e) /\
    forall v : jsval, get_prop "trace" headers = Some v ->
      no_undefined_keys v = true /\
      exists fields : js_object,
        v = JObject fields /\
        forall k : string, get_prop k fields <> Some JUndefined.
Proof.
  intros Hevent. exists (event_envelope_headers now e sdkInfo tunnel dsn).
  split; [now apply createEventEnvelopeHeaders_run|].
  destruct (event_envelope_headers_keys e sdkInfo tunnel dsn)
    as (_ & _ & _ & _ & Htrace & Hvalue).
  split.
  - rewrite Htrace, andb_true_iff.
    now rewrite is_transaction_spec, has_trace_context_spec.
  - intros v Hv. destruct (Hvalue v Hv) as (fields & _ & ->).
    split; [apply dropUndefinedKeys_sparse|].
    eexists. split; [reflexivity|].
    intros k. destruct (dropUndefinedKeys_top fields k) as (fs & [= <-] & Hk).
    exact Hk.
Qed.




Lemma createSessionEnvelope_run (h : heap) (session : loc)
    (fields : js_object) (dsn : DsnComponents)
    (metadata : option SdkMetadata) (tunnel : option string) :
  h !! session = Some (OSession fields) ->
  valid_metadata h metadata = true ->
  createSessionEnvelope now session dsn metadata tunnel h
  = Some (createEnvelope
            (spread (spread [("sent_at", JString now)]
                       (sdk_entry (header_sdkInfo h metadata)))
               (dsn_entry tunnel dsn))
            [([("type", JString (if has_key "aggregates" fields
                                 then "sessions" else "session"))],
              session)],
          h).
Proof.
  intros Hsession Hmeta. unfold createSessionEnvelope.
  rewrite (bind_Some _ _ _ _ _ (getSdkMetadataForEnvelopeHeader_run _ _ Hmeta)).
  unfold bind, load_session, ret. rewrite Hsession.
  now destruct (has_key "aggregates" fields).
Qed.



(** C5: [createSessionEnvelope] gives its one item the type 'sessions' when
    the session object has an [aggregates] key and 'session' when it has
    not, whatever else the object holds; the payload of the item is the
    session object that was passed, and the store is as it was. *)
Theorem createSessionEnvelope_item_type (h : heap) (session : loc)
    (fields : js_object) (dsn : DsnComponents)
    (metadata : option SdkMetadata) (tunnel : option string) :
  h !! session = Some (OSession fields) ->
  valid_metadata h metadata = true ->
  exists (headers item_header : js_object),
    createSessionEnvelope now session dsn metadata tunnel h
    = Some ((headers, [(item_header, session)]), h) /\
    (has_key "aggregates" fields = true ->
     item_header = [("type", JString "sessions")]) /\
    (has_key "aggregates" fields = false ->
     item_header = [("type", JString "session")]).
Proof.
  intros Hsession Hmeta. eexists. eexists.
  split; [exact (createSessionEnvelope_run h session fields dsn metadata
                   tunnel Hsession Hmeta)|].
  split; now intros ->.
Qed.

(** C8 (as amended): [createEventEnvelopeHeaders] and [createEventEnvelope]
    return headers for every event.  The [event_id] key of the headers holds
    the event's [event_id] as it is; for an event without [event_id] the key
    is there and holds [undefined]. *)
Theorem event_id_copied_verbatim (h : heap) (event : loc) (e : Event)
    (dsn : DsnComponents) (metadata : option SdkMetadata)
    (sdkInfo : option js_object) (tunnel : option string) :
  h !! event = Some (OEvent e) -> valid_event h event = true ->
  valid_metadata h metadata = true ->
  (exists headers : js_object,
      createEventEnvelopeHeaders now event sdkInfo tunnel dsn h
      = Some (headers, h) /\
      get_prop "event_id" headers = Some (of_string (event_id e))) /\
  (exists (headers : js_object) (items : list (js_object * loc)) (h1 : heap),
      createEventEnvelope now event dsn metadata tunnel h
      = Some ((headers, items), h1) /\
      get_prop "event_id" headers = Some (of_string (event_id e))).
Proof.
  intros Hevent Hvalid Hmeta. split.
  - eexists. split; [exact (createEventEnvelopeHeaders_run h event e
                              sdkInfo tunnel dsn Hevent)|].
    apply event_envelope_headers_keys.
  - destruct (createEventEnvelope_run h event e dsn metadata tunnel
                Hevent Hvalid Hmeta) as (h1 & e1 & _ & _ & He1 & _ & _ & Hrun).
    eexists. eexists. eexists. split; [exact Hrun|].
    destruct (event_envelope_headers_keys
                (delete_sdkProcessingMetadata e1) (header_sdkInfo h metadata)
                tunnel dsn) as (Hid & _).
    rewrite Hid, He1. reflexivity.
Qed.

Lemma event_item_header_spec (e : Event) :
  event_item_header e
  = [("type", JString (from_option literal "event" (type e)));
     ("sample_rates",
      JArray [JObject [("id", of_string (sampling e ≫= method));
                       ("rate", of_number (sampling e ≫= rate))]])].
Proof.
  unfold event_item_header, sampling.
  destruct (type e) as [t|];
    destruct (sdkProcessingMetadata e) as [[[t'|] o]|]; reflexivity.
Qed.

(** C4: the one item of the envelope that [createEventEnvelope] returns has
    the header [{ type: eventType, sample_rates: [{ id, rate }] }], where
    [eventType] is the event's type, or 'event' for an event without one, and
    [id] and [rate] are the method and the rate of
    [sdkProcessingMetadata.transactionSampling] of the event as it was
    passed, each [undefined] when it is not there; [sample_rates] has this
    one element in every case. *)
Theorem createEventEnvelope_item_header (h : heap) (event : loc) (e : Event)
    (dsn : DsnComponents) (metadata : option SdkMetadata)
    (tunnel : option string) :
  h !! event = Some (OEvent e) -> valid_event h event = true ->
  valid_metadata h metadata = true ->
  exists (headers item_header : js_object) (h1 : heap),
    createEventEnvelope now event dsn metadata tunnel h
    = Some ((headers, [(item_header, event)]), h1) /\
    item_header
    = [("type", JString (from_option literal "event" (type e)));
       ("sample_rates",
        JArray [JObject [("id", of_string (sampling e ≫= method));
                         ("rate", of_number (sampling e ≫= rate))]])].
Proof.
  intros Hevent Hvalid Hmeta.
  destruct (createEventEnvelope_run h event e dsn metadata tunnel
              Hevent Hvalid Hmeta) as (h1 & e1 & _ & _ & _ & _ & _ & Hrun).
  eexists. eexists. eexists. split; [exact Hrun|].
  apply event_item_header_spec.
Qed.

Lemma elem_of_key_if {A : Type} (k k' : string) (field : option A) :
  k ∈ key_if k' field -> k = k'.
Proof.
  destruct field; simpl.
  - now intros ->%list_elem_of_singleton.
  - now intros ?%elem_of_nil.
Qed.

Lemma own_keys_deleted (e : Event) :
  "sdkProcessingMetadata" ∉ map fst (event_other e) ->
  "sdkProcessingMetadata" ∉ own_keys (delete_sdkProcessingMetadata e).
Proof.
  intros Hother. unfold own_keys. rewrite !elem_of_app.
  intros [Hk|[Hk|[Hk|[Hk|[Hk|[Hk|[Hk|[Hk|[Hk|Hk]]]]]]]]];
    try (apply elem_of_key_if in Hk; discriminate Hk).
  - simpl in Hk. now apply elem_of_nil in Hk.
  - now apply Hother.
Qed.

Lemma createEventEnvelope_as_with (event : loc) (dsn : DsnComponents)
    (metadata : option SdkMetadata) (tunnel : option string) :
  createEventEnvelope now event dsn metadata tunnel
  = createEventEnvelope_with (createEventEnvelopeHeaders now) event dsn
      metadata tunnel.
Proof. reflexivity. Qed.

(** Whatever is called in the place of the header builder is called on the
    store that the merge and the deletion leave. *)
Lemma createEventEnvelope_with_run
    (build : loc -> option js_object -> option string -> DsnComponents
             -> M js_object)
    (h : heap) (event : loc) (e : Event) (dsn : DsnComponents)
    (metadata : option SdkMetadata) (tunnel : option string) :
  h !! event = Some (OEvent e) ->
  valid_event h event = true -> valid_metadata h metadata = true ->
  exists (h1 : heap) (e1 : Event),
    enhanceEventWithSdkInfo event (metadata_sdk metadata) h = Some (event, h1) /\
    h1 !! event = Some (OEvent e1) /\
    createEventEnvelope_with build event dsn metadata tunnel h
    = (let* headers := build event (header_sdkInfo h metadata) tunnel dsn in
       ret (createEnvelope headers [(event_item_header e, event)]))
        (<[event := OEvent (delete_sdkProcessingMetadata e1)]> h1).
Proof.
  intros Hevent Hvalid Hmeta.
  destruct (enhance_frame _ _ _ _ Hevent Hvalid Hmeta)
    as (h1 & e1 & Hrun & Hevent1 & _).
  exists h1, e1. split; [done|]. split; [done|].
  unfold createEventEnvelope_with.
  rewrite (bind_Some _ _ _ _ _ (getSdkMetadataForEnvelopeHeader_run _ _ Hmeta)).
  unfold bind at 1. unfold load_event at 1. rewrite Hevent.
  rewrite (bind_Some _ _ _ _ _ Hrun).
  unfold bind at 1. unfold load_event at 1. rewrite Hevent1.
  unfold bind at 1. unfold store at 1.
  unfold event_item_header. now rewrite or_else_literal.
Qed.

(** C3: the payload of the item that [createEventEnvelope] returns is the
    event that was passed, and in the store the call leaves that event has no
    [sdkProcessingMetadata]: the field is gone, every other field but [sdk]
    is what it was, and the key is not among the keys of the object.  The
    sampling data in the item header is that of the event as it was passed,
    so it was read before the field was deleted.  The headers are those of
    the event as it is in the final store; and whatever is called in the
    place of the header builder runs on that final store, so the field is
    gone before the headers are built and the envelope is assembled. *)
Theorem createEventEnvelope_strips_sdkProcessingMetadata (h : heap)
    (event : loc) (e : Event) (dsn : DsnComponents)
    (metadata : option SdkMetadata) (tunnel : option string) :
  h !! event = Some (OEvent e) -> valid_event h event = true ->
  valid_metadata h metadata = true ->
  exists (headers item_header : js_object) (h1 : heap) (e1 : Event),
    createEventEnvelope now event dsn metadata tunnel h
    = Some ((headers, [(item_header, event)]), h1) /\
    h1 !! event = Some (OEvent e1) /\
    sdkProcessingMetadata e1 = None /\
    (event_id e1 = event_id e /\ type e1 = type e /\
     contexts e1 = contexts e /\ environment e1 = environment e /\
     release e1 = release e /\ transaction e1 = transaction e /\
     user e1 = user e /\ event_other e1 = event_other e) /\
    ("sdkProcessingMetadata" ∉ map fst (event_other e) ->
     "sdkProcessingMetadata" ∉ own_keys e1) /\
    get_prop "sample_rates" item_header
    = Some (JArray [JObject [("id", of_string (sampling e ≫= method));
                             ("rate", of_number (sampling e ≫= rate))]]) /\
    createEventEnvelopeHeaders now event (header_sdkInfo h metadata) tunnel
      dsn h1
    = Some (headers, h1) /\
    createEventEnvelope now event dsn metadata tunnel
    = createEventEnvelope_with (createEventEnvelopeHeaders now) event dsn
        metadata tunnel /\
    forall build : loc -> option js_object -> option string -> DsnComponents
                   -> M js_object,
      createEventEnvelope_with build event dsn metadata tunnel h
      = (let* built := build event (header_sdkInfo h metadata) tunnel dsn in
         ret (createEnvelope built [(item_header, event)])) h1.
Proof.
  intros Hevent Hvalid Hmeta.
  destruct (createEventEnvelope_run h event e dsn metadata tunnel
              Hevent Hvalid Hmeta)
    as (h1 & e1 & Hmerge & Hevent1 & He1 & _ & _ & Hrun).
  eexists. eexists. eexists. exists (delete_sdkProcessingMetadata e1).
  split; [exact Hrun|].
  split; [apply lookup_insert_eq|]. split; [reflexivity|].
  split; [rewrite He1; simpl; repeat split|].
  split; [intros Hother; now apply own_keys_deleted; rewrite He1|].
  split; [now rewrite event_item_header_spec|].
  split; [apply createEventEnvelopeHeaders_run; apply lookup_insert_eq|].
  split; [apply createEventEnvelope_as_with|].
  intros build.
  destruct (createEventEnvelope_with_run build h event e dsn metadata tunnel
              Hevent Hvalid Hmeta) as (h1' & e1' & Hmerge' & Hevent1' & Hwith).
  assert (h1' = h1) by congruence. subst h1'.
  assert (e1' = e1) by congruence. subst e1'.
  exact Hwith.
Qed.

(** C9: [createEventEnvelope] leaves the event with every field as it was
    but [sdk] and [sdkProcessingMetadata], which is deleted; without an SDK
    descriptor [sdk] too is as it was and no other object changes; with one,
    every object of the old store other than the event and its [sdk] record
    is as it was.  [createEventEnvelopeHeaders] and [createSessionEnvelope]
    return with the store as it was. *)
Theorem envelope_creation_frame (dsn : DsnComponents)
    (metadata : option SdkMetadata) (tunnel : option string) :
  (forall (h : heap) (event : loc) (e : Event),
      h !! event = Some (OEvent e) -> valid_event h event = true ->
      valid_metadata h metadata = true ->
      exists (envelope : Envelope) (h1 : heap) (e1 : Event),
        createEventEnvelope now event dsn metadata tunnel h
        = Some (envelope, h1) /\
        h1 !! event = Some (OEvent e1) /\
        e1 = delete_sdkProcessingMetadata (with_sdk (sdk e1) e) /\
        (metadata_sdk metadata = None ->
         sdk e1 = sdk e /\ forall l : loc, l <> event -> h1 !! l = h !! l) /\
        (forall (l : loc) (o : obj),
            h !! l = Some o -> l <> event -> sdk e <> Some l ->
            h1 !! l = Some o)) /\
  (forall (h : heap) (event : loc) (e : Event) (sdkInfo : option js_object),
      h !! event = Some (OEvent e) ->
      exists headers : js_object,
        createEventEnvelopeHeaders now event sdkInfo tunnel dsn h
        = Some (headers, h)) /\
  (forall (h : heap) (session : loc) (fields : js_object),
      h !! session = Some (OSession fields) ->
      valid_metadata h metadata = true ->
      exists envelope : Envelope,
        createSessionEnvelope now session dsn metadata tunnel h
        = Some (envelope, h)).
Proof.
  split; [|split].
  - intros h event e Hevent Hvalid Hmeta.
    destruct (createEventEnvelope_run h event e dsn metadata tunnel
                Hevent Hvalid Hmeta)
      as (h1 & e1 & _ & Hevent1 & He1 & Hnone & Hframe & Hrun).
    eexists. eexists. exists (delete_sdkProcessingMetadata e1).
    split; [exact Hrun|]. split; [apply lookup_insert_eq|].
    split; [simpl; now rewrite <- He1|]. split.
    + intros Hno. rewrite (Hnone Hno) in *.
      split; [simpl; congruence|].
      intros l Hl. now rewrite lookup_insert_ne.
    + intros l o Hl Hle Hls. rewrite lookup_insert_ne by done.
      now apply Hframe.
  - intros h event e sdkInfo Hevent. eexists.
    exact (createEventEnvelopeHeaders_run h event e sdkInfo tunnel dsn
             Hevent).
  - intros h session fields Hsession Hmeta. eexists.
    exact (createSessionEnvelope_run h session fields dsn metadata tunnel
             Hsession Hmeta).
Qed.

End EnvelopeProofs.

(** ** The theorems on the sample stores *)

Lemma createEventEnvelopeHeaders_trace_witness :
  exists headers : js_object,
    @createEventEnvelopeHeaders sample_imports sample_now 1%positive None None
      sample_dsn sample_heap
    = Some (headers, sample_heap) /\
    get_prop "trace" headers
    = Some (JObject [("trace_id", JString "86f39e84263a4de99c326acab3bfe3bd");
                     ("environment", JString "production");
                     ("transaction", JString "/users/:id");
                     ("user", JObject [("id", JString "7")]);
                     ("public_key", JString "abc123")]).
Proof.
  destruct (@createEventEnvelopeHeaders_trace sample_imports sample_now
              sample_heap 1%positive sample_transaction None None sample_dsn)
    as (headers & Hrun & _).
  - vm_compute. reflexivity.
  - exists headers. split; [exact Hrun|].
    vm_compute in Hrun. injection Hrun as <-. vm_compute. reflexivity.
Defined.


Lemma createSessionEnvelope_item_type_witness :
  exists (headers item_header : js_object),
    @createSessionEnvelope sample_imports sample_now 9%positive sample_dsn
      None None sample_heap
    = Some ((headers, [(item_header, 9%positive)]), sample_heap) /\
    item_header = [("type", JString "sessions")].
Proof.
  destruct (@createSessionEnvelope_item_type sample_imports sample_now
              sample_heap 9%positive [("aggregates", JArray [])] sample_dsn
              None None)
    as (headers & item_header & Hrun & Hyes & _).
  - vm_compute. reflexivity.
  - vm_compute. reflexivity.
  - exists headers, item_header. split; [exact Hrun|]. now apply Hyes.
Defined.

Lemma event_id_copied_verbatim_witness :
  exists headers : js_object,
    @createEventEnvelopeHeaders sample_imports sample_now 7%positive None None
      sample_dsn sample_heap
    = Some (headers, sample_heap) /\
    get_prop "event_id" headers = Some JUndefined.
Proof.
  apply (@event_id_copied_verbatim sample_imports sample_now sample_heap
           7%positive sample_error sample_dsn None None None);
    vm_compute; reflexivity.
Defined.

Lemma createEventEnvelope_item_header_witness :
  exists (headers item_header : js_object) (h1 : heap),
    @createEventEnvelope sample_imports sample_now 1%positive sample_dsn
      sample_metadata None sample_heap
    = Some ((headers, [(item_header, 1%positive)]), h1) /\
    item_header
    = [("type", JString "transaction");
       ("sample_rates",
        JArray [JObject [("id", JString "client_rate");
                         ("rate", JNumber (QArith_base.Qmake 1 4))]])].
Proof.
  apply (@createEventEnvelope_item_header sample_imports sample_now
           sample_heap 1%positive sample_transaction sample_dsn
           sample_metadata None);
    vm_compute; reflexivity.
Defined.

Lemma createEventEnvelope_strips_sdkProcessingMetadata_witness :
  is_Some (sdkProcessingMetadata sample_transaction) /\
  exists (headers item_header : js_object) (h1 : heap) (e1 : Event),
    @createEventEnvelope sample_imports sample_now 1%positive sample_dsn
      sample_metadata None sample_heap
    = Some ((headers, [(item_header, 1%positive)]), h1) /\
    h1 !! 1%positive = Some (OEvent e1) /\
    sdkProcessingMetadata e1 = None /\
    event_other e1 = event_other sample_transaction /\
    "sdkProcessingMetadata" ∉ own_keys e1.
Proof.
  split; [vm_compute; eauto|].
  destruct (@createEventEnvelope_strips_sdkProcessingMetadata sample_imports
              sample_now sample_heap 1%positive sample_transaction sample_dsn
              sample_metadata None)
    as (headers & item_header & h1 & e1 & Hrun & Hevent & Hgone & Hsame
        & Hkeys & _).
  - vm_compute. reflexivity.
  - vm_compute. reflexivity.
  - vm_compute. reflexivity.
  - exists headers, item_header, h1, e1.
    split; [exact Hrun|]. split; [exact Hevent|]. split; [exact Hgone|].
    split; [apply Hsame|].
    apply Hkeys. simpl. intros Hin.
    apply list_elem_of_singleton in Hin. discriminate Hin.
Defined.

Lemma envelope_creation_frame_witness :
  exists (envelope : Envelope) (h1 : heap),
    @createEventEnvelope sample_imports sample_now 1%positive sample_dsn
      sample_metadata None sample_heap
    = Some (envelope, h1) /\
    h1 !! 3%positive = sample_heap !! 3%positive /\
    h1 !! 8%positive = sample_heap !! 8%positive.
Proof.
  destruct (@envelope_creation_frame sample_imports sample_now sample_dsn
              sample_metadata None) as (Hevent & _ & _).
  destruct (Hevent sample_heap 1%positive sample_transaction)
    as (envelope & h1 & e1 & Hrun & _ & _ & _ & Hframe).
  - vm_compute. reflexivity.
  - vm_compute. reflexivity.
  - vm_compute. reflexivity.
  - exists envelope, h1. split; [exact Hrun|]. split.
    + erewrite Hframe; [| vm_compute; reflexivity | discriminate | discriminate].
      vm_compute. reflexivity.
    + erewrite Hframe; [| vm_compute; reflexivity | discriminate | discriminate].
      vm_compute. reflexivity.
Defined.

Lemma headers_without_event_id :
  @createEventEnvelopeHeaders sample_imports sample_now 7%positive None None
    sample_dsn sample_heap
  = Some ([("event_id", JUndefined); ("sent_at", JString sample_now)],
          sample_heap).
Proof. vm_compute. reflexivity. Qed.

(** C8 (as stated) fails: for an event without [event_id] the headers are
    returned all the same, with [event_id] holding [undefined]. *)
Lemma missing_event_id_is_not_rejected : ~ fails_without_event_id.
Proof.
  intros Hclaim.
  pose proof (Hclaim sample_imports sample_now sample_heap 7%positive
                sample_error None None sample_dsn) as Hfail.
  rewrite headers_without_event_id in Hfail.
  assert (Hnone : Some ([("event_id", JUndefined);
                         ("sent_at", JString sample_now)], sample_heap)
                  = @None (js_object * heap)).
  { apply Hfail; vm_compute; reflexivity. }
  discriminate Hnone.
Qed.

(** ** Replay segment ids *)






(** ** Further properties of envelope.ts *)

Section MoreOnHeaders.

Context {imports : Imports}.
Variable now : string.

Lemma event_envelope_headers_values (e : Event) (sdkInfo : option js_object)
    (tunnel : option string) (dsn : DsnComponents) :
  get_prop "sdk" (event_envelope_headers now e sdkInfo tunnel dsn)
  = JObject <$> sdkInfo /\
  get_prop "dsn" (event_envelope_headers now e sdkInfo tunnel dsn)
  = (if truthy tunnel then Some (JString (dsnToString dsn)) else None) /\
  sublist (keys (event_envelope_headers now e sdkInfo tunnel dsn))
    ["event_id"; "sent_at"; "sdk"; "dsn"; "trace"].
Proof.
  unfold event_envelope_headers, sdk_entry, dsn_entry, keys.
  destruct (trace_entry_cases e dsn) as [[_ ->]|[_ [fields ->]]];
    destruct sdkInfo as [i|]; destruct (truthy tunnel); simpl;
    (split; [reflexivity|split; [reflexivity|repeat constructor]]).
Qed.

Lemma session_headers_values (sdkInfo : option js_object)
    (tunnel : option string) (dsn : DsnComponents) :
  let headers := spread (spread [("sent_at", JString now)] (sdk_entry sdkInfo))
                   (dsn_entry tunnel dsn) in
  get_prop "sdk" headers = JObject <$> sdkInfo /\
  get_prop "dsn" headers
  = (if truthy tunnel then Some (JString (dsnToString dsn)) else None) /\
  sublist (keys headers) ["sent_at"; "sdk"; "dsn"].
Proof.
  unfold sdk_entry, dsn_entry, keys.
  destruct sdkInfo as [i|]; destruct (truthy tunnel); simpl;
    (split; [reflexivity|split; [reflexivity|repeat constructor]]).
Qed.

Lemma header_sdkInfo_value (h : heap) (metadata : option SdkMetadata) :
  JObject <$> header_sdkInfo h metadata
  = match metadata_sdk metadata with
    | Some info =>
        Some (JObject [("name", of_string (name (descriptor h info)));
                       ("version", of_string (version (descriptor h info)))])
    | None => None
    end.
Proof. unfold header_sdkInfo. now destruct (metadata_sdk metadata). Qed.

(** The headers do not depend on what the merge and the deletion change. *)
Lemma event_envelope_headers_after (e : Event) (s : option loc)
    (sdkInfo : option js_object) (tunnel : option string)
    (dsn : DsnComponents) :
  event_envelope_headers now (delete_sdkProcessingMetadata (with_sdk s e))
    sdkInfo tunnel dsn
  = event_envelope_headers now e sdkInfo tunnel dsn.
Proof. reflexivity. Qed.

(** X1: the [sdk] value of the headers of both kinds of envelope is the
    object [{ name, version }] of the descriptor as it is when the function
    is called, with [undefined] kept for a field the descriptor lacks, and
    without integrations or packages; the [dsn] value is
    [dsnToString(dsn)]. *)
Theorem envelope_headers_sdk_dsn_values (dsn : DsnComponents)
    (metadata : option SdkMetadata) (tunnel : option string) :
  (forall (h : heap) (event : loc),
      valid_event h event = true -> valid_metadata h metadata = true ->
      exists (headers : js_object) (items : list (js_object * loc))
             (h1 : heap),
        createEventEnvelope now event dsn metadata tunnel h
        = Some ((headers, items), h1) /\
        header_sdk_dsn_values h metadata tunnel dsn headers) /\
  (forall (h : heap) (session : loc) (fields : js_object),
      h !! session = Some (OSession fields) ->
      valid_metadata h metadata = true ->
      exists (headers : js_object) (items : list (js_object * loc)),
        createSessionEnvelope now session dsn metadata tunnel h
        = Some ((headers, items), h) /\
        header_sdk_dsn_values h metadata tunnel dsn headers).
Proof.
  split.
  - intros h event Hvalid Hmeta.
    destruct (valid_event_inv _ _ Hvalid) as (e & Hevent).
    destruct (createEventEnvelope_run now h event e dsn metadata tunnel
                Hevent Hvalid Hmeta) as (h1 & e1 & _ & _ & _ & _ & _ & Hrun).
    eexists. eexists. eexists. split; [exact Hrun|].
    destruct (event_envelope_headers_values
                (delete_sdkProcessingMetadata e1) (header_sdkInfo h metadata)
                tunnel dsn) as (Hsdk & Hdsn & _).
    split; [|exact Hdsn]. rewrite Hsdk. apply header_sdkInfo_value.
  - intros h session fields Hsession Hmeta. eexists. eexists.
    split; [exact (createSessionEnvelope_run now h session fields dsn
                     metadata tunnel Hsession Hmeta)|].
    destruct (session_headers_values (header_sdkInfo h metadata) tunnel dsn)
      as (Hsdk & Hdsn & _).
    split; [|exact Hdsn]. rewrite Hsdk. apply header_sdkInfo_value.
Qed.

(** X2: the keys of the headers of an event envelope are among [event_id],
    [sent_at], [sdk], [dsn], [trace], in this order and each at most once;
    those of a session envelope are among [sent_at], [sdk], [dsn], so it has
    neither [event_id] nor [trace]. *)
Theorem envelope_headers_keys_in_order (dsn : DsnComponents)
    (metadata : option SdkMetadata) (tunnel : option string) :
  (forall (h : heap) (event : loc),
      valid_event h event = true -> valid_metadata h metadata = true ->
      exists (headers : js_object) (items : list (js_object * loc))
             (h1 : heap),
        createEventEnvelope now event dsn metadata tunnel h
        = Some ((headers, items), h1) /\
        sublist (keys headers)
          ["event_id"; "sent_at"; "sdk"; "dsn"; "trace"]) /\
  (forall (h : heap) (session : loc) (fields : js_object),
      h !! session = Some (OSession fields) ->
      valid_metadata h metadata = true ->
      exists (headers : js_object) (items : list (js_object * loc)),
        createSessionEnvelope now session dsn metadata tunnel h
        = Some ((headers, items), h) /\
        sublist (keys headers) ["sent_at"; "sdk"; "dsn"]).
Proof.
  split.
  - intros h event Hvalid Hmeta.
    destruct (valid_event_inv _ _ Hvalid) as (e & Hevent).
    destruct (createEventEnvelope_run now h event e dsn metadata tunnel
                Hevent Hvalid Hmeta) as (h1 & e1 & _ & _ & _ & _ & _ & Hrun).
    eexists. eexists. eexists. split; [exact Hrun|].
    apply event_envelope_headers_values.
  - intros h session fields Hsession Hmeta. eexists. eexists.
    split; [exact (createSessionEnvelope_run now h session fields dsn
                     metadata tunnel Hsession Hmeta)|].
    apply session_headers_values.
Qed.

(** X3: the headers of the envelope that [createEventEnvelope] returns are
    those that [createEventEnvelopeHeaders] builds for the event as it was
    passed, with the sdk info of the metadata: neither the merge of the SDK
    info nor the deletion of [sdkProcessingMetadata] shows in them. *)
Theorem createEventEnvelope_headers_of_input (h : heap) (event : loc)
    (dsn : DsnComponents) (metadata : option SdkMetadata)
    (tunnel : option string) :
  valid_event h event = true -> valid_metadata h metadata = true ->
  exists (headers : js_object) (items : list (js_object * loc)) (h1 : heap)
         (sdkInfo : option js_object),
    createEventEnvelope now event dsn metadata tunnel h
    = Some ((headers, items), h1) /\
    getSdkMetadataForEnvelopeHeader metadata h = Some (sdkInfo, h) /\
    createEventEnvelopeHeaders now event sdkInfo tunnel dsn h
    = Some (headers, h).
Proof.
  intros Hvalid Hmeta.
  destruct (valid_event_inv _ _ Hvalid) as (e & Hevent).
  destruct (createEventEnvelope_run now h event e dsn metadata tunnel
              Hevent Hvalid Hmeta) as (h1 & e1 & _ & _ & He1 & _ & _ & Hrun).
  eexists. eexists. eexists. exists (header_sdkInfo h metadata).
  split; [exact Hrun|].
  split; [now apply getSdkMetadataForEnvelopeHeader_run|].
  rewrite He1, event_envelope_headers_after.
  now apply createEventEnvelopeHeaders_run.
Qed.

(** X4: in the envelope that [createEventEnvelope] returns, headers with a
    [trace] key go with an item of type 'transaction', and an event without
    a type gives an item of type 'event' and headers without [trace]. *)
Theorem trace_header_goes_with_transaction_item (h : heap) (event : loc)
    (e : Event) (dsn : DsnComponents) (metadata : option SdkMetadata)
    (tunnel : option string) :
  h !! event = Some (OEvent e) -> valid_event h event = true ->
  valid_metadata h metadata = true ->
  exists (headers item_header : js_object) (h1 : heap),
    createEventEnvelope now event dsn metadata tunnel h
    = Some ((headers, [(item_header, event)]), h1) /\
    (has_key "trace" headers = true ->
     get_prop "type" item_header = Some (JString "transaction")) /\
    (type e = None ->
     get_prop "type" item_header = Some (JString "event") /\
     has_key "trace" headers = false).
Proof.
  intros Hevent Hvalid Hmeta.
  destruct (createEventEnvelope_run now h event e dsn metadata tunnel
              Hevent Hvalid Hmeta) as (h1 & e1 & _ & _ & He1 & _ & _ & Hrun).
  eexists. eexists. eexists. split; [exact Hrun|].
  rewrite He1, event_envelope_headers_after.
  destruct (event_envelope_headers_keys now e (header_sdkInfo h metadata)
              tunnel dsn) as (_ & _ & _ & _ & Htrace & _).
  rewrite Htrace. unfold event_item_header, is_transaction. simpl.
  destruct (type e) as [t|]; split.
  - intros [Ht _]%andb_true_iff. apply String.eqb_eq in Ht. now rewrite Ht.
  - discriminate.
  - discriminate.
  - now intros _.
Qed.

End MoreOnHeaders.

Lemma get_prop_absent (k : string) (o : js_object) :
  k ∉ keys o -> get_prop k o = None.
Proof.
  induction o as [|[k' v] r IH]; [done|]. unfold keys. simpl.
  intros [Hne Hr]%not_elem_of_cons.
  destruct (String.eqb k k') eqn:E; [|now apply IH].
  apply String.eqb_eq in E. contradiction.
Qed.

Lemma dropUndefinedKeys_object (fields : js_object) :
  NoDup (keys fields) ->
  exists fields' : js_object,
    dropUndefinedKeys (JObject fields) = JObject fields' /\
    sublist (keys fields') (keys fields) /\
    forall k : string, get_prop k fields' = get_prop k fields ≫= kept.
Proof.
  induction fields as [|[k' v] r IH]; intros Hnodup.
  - exists []. repeat split; constructor.
  - unfold keys in Hnodup. simpl in Hnodup.
    apply NoDup_cons in Hnodup as [Hk' Hr].
    destruct (IH Hr) as (r' & Hdrop & Hsub & Hget).
    simpl in Hdrop. injection Hdrop as Hdrop.
    assert (Hnone : get_prop k' r' = None).
    { apply get_prop_absent. intros Hin. apply Hk'.
      eapply sublist_subseteq; eassumption. }
    destruct v;
      [ exists r'; simpl; rewrite Hdrop; split; [done|];
        split; [now apply sublist_cons|];
        intros k; simpl; destruct (String.eqb k k') eqn:E; [|apply Hget];
        apply String.eqb_eq in E; now subst k
      | (eexists ((k', _) :: r'); simpl; rewrite Hdrop; split; [reflexivity|];
         split; [unfold keys; simpl; now apply sublist_skip|];
         intros k; simpl; destruct (String.eqb k k'); [reflexivity|apply Hget])
        .. ].
Qed.

Section TraceContent.

Context {imports : Imports}.
Variable now : string.

Lemma trace_entry_fields (e : Event) (dsn : DsnComponents) (c : Contexts)
    (t : TraceContext) :
  is_transaction e = true -> contexts e = Some c -> trace c = Some t ->
  exists fields : js_object,
    trace_entry e dsn = Some [("trace", JObject fields)] /\
    get_prop "trace_id" fields = JString <$> trace_id t /\
    get_prop "environment" fields = JString <$> environment e /\
    get_prop "release" fields = JString <$> release e /\
    get_prop "transaction" fields = JString <$> transaction e /\
    get_prop "public_key" fields = JString <$> publicKey dsn /\
    trace_user_is (user e) fields /\
    sublist (keys fields)
      ["trace_id"; "environment"; "release"; "transaction"; "user";
       "public_key"].
Proof.
  intros Htx Hc Ht. unfold trace_entry. rewrite Htx, Hc, Ht.
  match goal with
  | |- context [dropUndefinedKeys (JObject ?fs)] =>
      destruct (dropUndefinedKeys_object fs) as (fields & -> & Hsub & Hget)
  end.
  { apply (bool_decide_unpack _). vm_compute. exact I. }
  exists fields. split; [reflexivity|].
  split; [rewrite Hget; simpl; now destruct (trace_id t)|].
  split; [rewrite Hget; simpl; now destruct (environment e)|].
  split; [rewrite Hget; simpl; now destruct (release e)|].
  split; [rewrite Hget; simpl; now destruct (transaction e)|].
  split; [rewrite Hget; simpl; now destruct (publicKey dsn)|].
  split; [|exact Hsub].
  unfold trace_user_is. rewrite Hget. simpl.
  destruct (user e) as [u|]; [|reflexivity]. unfold kept.
  match goal with
  | |- context [dropUndefinedKeys (JObject ?fs)] =>
      destruct (dropUndefinedKeys_object fs) as (inner & -> & Hsub' & Hget')
  end.
  { apply (bool_decide_unpack _). vm_compute. exact I. }
  exists inner. split; [reflexivity|].
  split; [rewrite Hget'; simpl; now destruct (user_id u)|].
  split; [rewrite Hget'; simpl; now destruct (user_segment u)|].
  exact Hsub'.
Qed.

(** X5: for a transaction with a trace context, the [trace] object of the
    headers holds [trace_id], [environment], [release], [transaction] and
    [public_key] with the values of the trace context, the event and the dsn,
    each left out when it is undefined; [user] is there when the event has a
    user and holds its [id] and [segment] and nothing else of the user; the
    object has no other key. *)
Theorem trace_header_fields (h : heap) (event : loc) (e : Event)
    (c : Contexts) (t : TraceContext) (sdkInfo : option js_object)
    (tunnel : option string) (dsn : DsnComponents) :
  h !! event = Some (OEvent e) ->
  is_transaction_type e -> contexts e = Some c -> trace c = Some t ->
  exists (headers fields : js_object),
    createEventEnvelopeHeaders now event sdkInfo tunnel dsn h
    = Some (headers, h) /\
    get_prop "trace" headers = Some (JObject fields) /\
    get_prop "trace_id" fields = JString <$> trace_id t /\
    get_prop "environment" fields = JString <$> environment e /\
    get_prop "release" fields = JString <$> release e /\
    get_prop "transaction" fields = JString <$> transaction e /\
    get_prop "public_key" fields = JString <$> publicKey dsn /\
    trace_user_is (user e) fields /\
    sublist (keys fields)
      ["trace_id"; "environment"; "release"; "transaction"; "user";
       "public_key"].
Proof.
  intros Hevent Htx%is_transaction_spec Hc Ht.
  destruct (trace_entry_fields e dsn c t Htx Hc Ht) as (fields & Hentry & Hrest).
  exists (event_envelope_headers now e sdkInfo tunnel dsn), fields.
  split; [now apply createEventEnvelopeHeaders_run|].
  split; [|exact Hrest].
  unfold event_envelope_headers, sdk_entry, dsn_entry. rewrite Hentry.
  destruct sdkInfo; destruct (truthy tunnel); reflexivity.
Qed.

End TraceContent.

(** X6: a merge changes no array that exists: the lists the event had and
    those of the descriptor keep their elements.  When the descriptor is not
    the event's own [sdk] record, the descriptor object is left as it was, and
    neither array the event ends up with is an array of the descriptor, so
    the event and the SDK metadata share no list. *)
Theorem enhanceEventWithSdkInfo_reads_only (h : heap) (event info : loc)
    (e : Event) :
  h !! event = Some (OEvent e) ->
  valid_event h event = true -> valid_sdk h info = true ->
  exists h1 : heap,
    enhanceEventWithSdkInfo event (Some info) h = Some (event, h1) /\
    (forall (l : loc) (xs : list jsval),
        h !! l = Some (OArray xs) -> h1 !! l = Some (OArray xs)) /\
    (sdk e <> Some info ->
     h1 !! info = h !! info /\
     forall l : loc,
       integrations (sdk_record h1 event) = Some l \/
       packages (sdk_record h1 event) = Some l ->
       integrations (descriptor h1 info) <> Some l /\
       packages (descriptor h1 info) <> Some l).
Proof.
  intros Hevent Hvalid Hinfo.
  destruct (enhance_once _ _ _ _ Hevent Hvalid Hinfo)
    as (h1 & s & a1 & a2 & Hrun & Hplaced & -> & _ & _ & Hrec & _).
  destruct (valid_sdk_inv _ _ Hinfo) as (d & Hd & Hdd & Hdi & Hdp).
  pose proof Hplaced as (_ & Hf1 & Hf2 & _).
  eexists. split; [exact Hrun|]. split.
  - intros l xs Hl. apply (enhanced_frame h event info e s a1 a2 Hplaced);
      [done| |].
    + intros ->. congruence.
    + intros Hs. unfold valid_event in Hvalid. rewrite Hevent, Hs in Hvalid.
      destruct (valid_sdk_inv _ _ Hvalid) as (i & Hi & _). congruence.
  - intros Hother.
    destruct (enhanced_descriptor h event info e s a1 a2 Hevent Hinfo Hplaced)
      as [[Heq _]|[_ Hsame]].
    { destruct Hplaced as ([Hs|[_ Hs]] & _); congruence. }
    split.
    + rewrite Hd. apply (enhanced_frame h event info e s a1 a2 Hplaced);
        [done| |done].
      intros ->. congruence.
    + rewrite Hrec, Hsame, Hdd. simpl. intros l [[= <-]|[= <-]].
      * split; [exact (valid_array_ne_fresh _ _ _ Hdi Hf1)
               |exact (valid_array_ne_fresh _ _ _ Hdp Hf1)].
      * split; [exact (valid_array_ne_fresh _ _ _ Hdi Hf2)
               |exact (valid_array_ne_fresh _ _ _ Hdp Hf2)].
Qed.

(** X7: when the descriptor is the event's own [sdk] record, the merge keeps
    name and version and leaves each list followed by itself. *)
Theorem enhanceEventWithSdkInfo_self_merge (h : heap) (event s : loc)
    (e : Event) :
  h !! event = Some (OEvent e) -> sdk e = Some s ->
  valid_event h event = true ->
  exists h1 : heap,
    enhanceEventWithSdkInfo event (Some s) h = Some (event, h1) /\
    h1 !! event = Some (OEvent e) /\
    sdk_name h1 event = sdk_name h event /\
    sdk_version h1 event = sdk_version h event /\
    sdk_integrations h1 event
    = sdk_integrations h event ++ sdk_integrations h event /\
    sdk_packages h1 event = sdk_packages h event ++ sdk_packages h event.
Proof.
  intros Hevent Hs Hvalid.
  assert (Hinfo : valid_sdk h s = true).
  { unfold valid_event in Hvalid. now rewrite Hevent, Hs in Hvalid. }
  assert (Hsame : descriptor h s = sdk_record h event).
  { unfold sdk_record. now rewrite Hevent, Hs. }
  destruct (enhance_once _ _ _ _ Hevent Hvalid Hinfo)
    as (h1 & s' & a1 & a2 & Hrun & Hplaced & -> & _ & _ & Hrec & Hints & Hpkgs).
  assert (s' = s).
  { destruct Hplaced as ([Hs'|[Hs' _]] & _); congruence. }
  subst s'.
  eexists. split; [exact Hrun|].
  split.
  { rewrite (enhanced_event h event s e s a1 a2 Hevent Hvalid Hplaced).
    destruct e; simpl in *; now subst. }
  unfold sdk_name, sdk_version. rewrite Hrec, Hsame. simpl.
  split; [apply js_or_same|]. split; [apply js_or_same|].
  rewrite Hints, Hpkgs, Hsame. now split.
Qed.

(** One merge of a descriptor that is not the event's own [sdk] record:
    what the next merge needs holds again. *)
Lemma enhance_once_apart (h : heap) (event info : loc) (e : Event) :
  h !! event = Some (OEvent e) -> sdk e <> Some info ->
  valid_event h event = true -> valid_sdk h info = true ->
  exists (h1 : heap) (e1 : Event),
    enhanceEventWithSdkInfo event (Some info) h = Some (event, h1) /\
    h1 !! event = Some (OEvent e1) /\ sdk e1 <> Some info /\
    valid_event h1 event = true /\ valid_sdk h1 info = true /\
    descriptor h1 info = descriptor h info /\
    elements h1 (integrations (descriptor h info))
    = elements h (integrations (descriptor h info)) /\
    elements h1 (packages (descriptor h info))
    = elements h (packages (descriptor h info)) /\
    sdk_name h1 event = js_or (sdk_name h event) (name (descriptor h info)) /\
    sdk_version h1 event
    = js_or (sdk_version h event) (version (descriptor h info)) /\
    sdk_integrations h1 event
    = sdk_integrations h event ++ elements h (integrations (descriptor h info)) /\
    sdk_packages h1 event
    = sdk_packages h event ++ elements h (packages (descriptor h info)).
Proof.
  intros Hevent Hother Hvalid Hinfo.
  destruct (enhance_once _ _ _ _ Hevent Hvalid Hinfo)
    as (h1 & s & a1 & a2 & Hrun & Hplaced & -> & Hvalid1 & Hinfo1 & Hrec
        & Hints & Hpkgs).
  destruct (valid_sdk_inv _ _ Hinfo) as (d & Hd & Hdd & Hdi & Hdp).
  destruct (enhanced_descriptor h event info e s a1 a2 Hevent Hinfo Hplaced)
    as [[Heq _]|[_ Hsame]].
  { destruct Hplaced as ([Hs|[_ Hs]] & _); congruence. }
  exists (enhanced h event info e s a1 a2), (with_sdk (Some s) e).
  split; [exact Hrun|].
  split; [now apply enhanced_event|].
  split.
  { simpl. intros [= ->]. destruct Hplaced as ([Hs|[_ Hs]] & _); congruence. }
  split; [done|]. split; [done|]. split; [done|].
  rewrite Hdd.
  split; [now apply enhanced_elements_old|].
  split; [now apply enhanced_elements_old|].
  unfold sdk_name, sdk_version. rewrite Hrec, Hdd. simpl.
  split; [done|]. split; [done|]. rewrite <- Hdd. now split.
Qed.

(** X8: [n] merges of a descriptor that is not the event's own [sdk] record
    leave the event's lists followed by [n] copies of the descriptor's lists,
    and, for [n] at least one, name and version as the first merge set
    them. *)
Theorem merge_times_appends (n : nat) (h : heap) (event info : loc)
    (e : Event) :
  h !! event = Some (OEvent e) -> sdk e <> Some info ->
  valid_event h event = true -> valid_sdk h info = true ->
  exists h1 : heap,
    merge_times n event info h = Some (event, h1) /\
    sdk_integrations h1 event
    = sdk_integrations h event
      ++ concat (replicate n (elements h (integrations (descriptor h info)))) /\
    sdk_packages h1 event
    = sdk_packages h event
      ++ concat (replicate n (elements h (packages (descriptor h info)))) /\
    (0 < n ->
     sdk_name h1 event = js_or (sdk_name h event) (name (descriptor h info)) /\
     sdk_version h1 event
     = js_or (sdk_version h event) (version (descriptor h info))).
Proof.
  revert h e. induction n as [|n IH]; intros h e Hevent Hother Hvalid Hinfo.
  - exists h. simpl. rewrite !app_nil_r. repeat split; lia.
  - destruct (enhance_once_apart _ _ _ _ Hevent Hother Hvalid Hinfo)
      as (h1 & e1 & Hrun & Hevent1 & Hother1 & Hvalid1 & Hinfo1 & Hdesc
          & Hdi & Hdp & Hname & Hversion & Hints & Hpkgs).
    destruct (IH h1 e1 Hevent1 Hother1 Hvalid1 Hinfo1)
      as (h2 & Hrun2 & Hints2 & Hpkgs2 & Hnames2).
    exists h2. split.
    { simpl. now rewrite (bind_Some _ _ _ _ _ Hrun). }
    rewrite Hints2, Hpkgs2, Hints, Hpkgs, Hdesc, Hdi, Hdp. simpl.
    rewrite <- !app_assoc. split; [done|]. split; [done|].
    intros _. destruct n as [|n].
    + simpl in Hrun2. injection Hrun2 as <-. now split.
    + destruct Hnames2 as [-> ->]; [lia|].
      rewrite Hname, Hversion, Hdesc. split; apply js_or_idem.
Qed.

Lemma valid_array_insert_event (h : heap) (event : loc) (e0 x : Event)
    (a : option loc) :
  h !! event = Some (OEvent e0) ->
  valid_array (<[event := OEvent x]> h) a = valid_array h a.
Proof.
  intros Hevent. destruct a as [l|]; simpl; [|done].
  destruct (decide (l = event)) as [->|Hne].
  - now rewrite lookup_insert_eq, Hevent.
  - now rewrite lookup_insert_ne.
Qed.

Lemma valid_sdk_insert_event (h : heap) (event : loc) (e0 x : Event)
    (s : loc) :
  h !! event = Some (OEvent e0) ->
  valid_sdk (<[event := OEvent x]> h) s = valid_sdk h s.
Proof.
  intros Hevent. unfold valid_sdk.
  destruct (decide (s = event)) as [->|Hne].
  - now rewrite lookup_insert_eq, Hevent.
  - rewrite lookup_insert_ne by done.
    destruct (h !! s) as [[|i| |]|]; try done.
    now rewrite !(valid_array_insert_event h event e0 x).
Qed.

Lemma descriptor_insert_event (h : heap) (event : loc) (e0 x : Event)
    (s : loc) :
  h !! event = Some (OEvent e0) ->
  descriptor (<[event := OEvent x]> h) s = descriptor h s.
Proof.
  intros Hevent. unfold descriptor.
  destruct (decide (s = event)) as [->|Hne].
  - now rewrite lookup_insert_eq, Hevent.
  - now rewrite lookup_insert_ne.
Qed.

(** The merge as [createEventEnvelope] calls it leaves a store in which the
    event and the metadata are as well-formed as before, and a descriptor
    with the name and version it had. *)
Lemma enhance_keeps_valid (h : heap) (event : loc) (e : Event)
    (metadata : option SdkMetadata) :
  h !! event = Some (OEvent e) ->
  valid_event h event = true -> valid_metadata h metadata = true ->
  exists h1 : heap,
    enhanceEventWithSdkInfo event (metadata_sdk metadata) h = Some (event, h1) /\
    valid_event h1 event = true /\ valid_metadata h1 metadata = true /\
    header_sdkInfo h1 metadata = header_sdkInfo h metadata.
Proof.
  intros Hevent Hvalid Hmeta. unfold valid_metadata, header_sdkInfo in *.
  destruct (metadata_sdk metadata) as [info|].
  - destruct (enhance_once _ _ _ _ Hevent Hvalid Hmeta)
      as (h1 & s & a1 & a2 & Hrun & Hplaced & -> & Hvalid1 & Hinfo1 & _).
    eexists. split; [exact Hrun|]. split; [done|]. split; [done|].
    destruct (enhanced_descriptor h event info e s a1 a2 Hevent Hmeta Hplaced)
      as [[Heq ->]|[_ ->]]; [|done].
    assert (Hsame : sdk_record h event = descriptor h info).
    { unfold sdk_record. rewrite Hevent.
      destruct Hplaced as ([Hs|[_ Hs]] & _); [now rewrite Hs, Heq|].
      destruct (valid_sdk_inv _ _ Hmeta) as (d & Hd & _). congruence. }
    rewrite Hsame. simpl. now rewrite !js_or_same.
  - exists h. now split.
Qed.

Section Reuse.

Context {imports : Imports}.
Variable now : string.

(** X9: an event is spent by its envelope.  A second [createEventEnvelope]
    on the same event returns the same headers and an item of the same type,
    but the sampling data is gone: [sample_rates] holds one element whose
    [id] and [rate] are [undefined]. *)
Theorem createEventEnvelope_twice (h : heap) (event : loc) (e : Event)
    (dsn : DsnComponents) (metadata : option SdkMetadata)
    (tunnel : option string) :
  h !! event = Some (OEvent e) -> valid_event h event = true ->
  valid_metadata h metadata = true ->
  exists (headers : js_object) (items : list (js_object * loc))
         (item_header : js_object) (h1 h2 : heap),
    createEventEnvelope now event dsn metadata tunnel h
    = Some ((headers, items), h1) /\
    createEventEnvelope now event dsn metadata tunnel h1
    = Some ((headers, [(item_header, event)]), h2) /\
    item_header
    = [("type", JString (from_option literal "event" (type e)));
       ("sample_rates",
        JArray [JObject [("id", JUndefined); ("rate", JUndefined)]])].
Proof.
  intros Hevent Hvalid Hmeta.
  destruct (createEventEnvelope_run now h event e dsn metadata tunnel
              Hevent Hvalid Hmeta)
    as (h1 & e1 & Hmerge & Hevent1 & He1 & _ & _ & Hrun).
  destruct (enhance_keeps_valid h event e metadata Hevent Hvalid Hmeta)
    as (h1' & Hmerge' & Hvalid1 & Hmeta1 & Hinfo1).
  assert (h1' = h1) by congruence. subst h1'.
  set (e2 := delete_sdkProcessingMetadata e1) in *.
  set (h2 := <[event := OEvent e2]> h1) in *.
  assert (Hevent2 : h2 !! event = Some (OEvent e2))
    by apply lookup_insert_eq.
  assert (Hvalid2 : valid_event h2 event = true).
  { unfold valid_event in *. rewrite Hevent2. rewrite Hevent1 in Hvalid1.
    simpl. destruct (sdk e1) as [s|]; [|done].
    unfold h2. now rewrite (valid_sdk_insert_event h1 event e1 e2). }
  assert (Hmeta2 : valid_metadata h2 metadata = true).
  { unfold valid_metadata in *. destruct (metadata_sdk metadata); [|done].
    unfold h2. now rewrite (valid_sdk_insert_event h1 event e1 e2). }
  assert (Hinfo2 : header_sdkInfo h2 metadata = header_sdkInfo h metadata).
  { rewrite <- Hinfo1. unfold header_sdkInfo, h2.
    destruct (metadata_sdk metadata); [|done].
    now rewrite (descriptor_insert_event h1 event e1 e2). }
  destruct (createEventEnvelope_run now h2 event e2 dsn metadata tunnel
              Hevent2 Hvalid2 Hmeta2)
    as (h3 & e3 & _ & _ & He3 & _ & _ & Hrun2).
  eexists. eexists. eexists. exists h2. eexists.
  split; [exact Hrun|]. split.
  - rewrite Hrun2, Hinfo2. unfold createEnvelope. do 3 f_equal.
    rewrite He3. unfold e2. rewrite He1. reflexivity.
  - unfold e2. rewrite He1. reflexivity.
Qed.

End Reuse.

Lemma elements_insert_event (h : heap) (event : loc) (e0 x : Event)
    (a : option loc) :
  h !! event = Some (OEvent e0) ->
  elements (<[event := OEvent x]> h) a = elements h a.
Proof.
  intros Hevent. destruct a as [l|]; simpl; [|done].
  destruct (decide (l = event)) as [->|Hne].
  - now rewrite lookup_insert_eq, Hevent.
  - now rewrite lookup_insert_ne.
Qed.

Lemma sdk_record_delete (h : heap) (event : loc) (e1 : Event) :
  h !! event = Some (OEvent e1) ->
  sdk_record (<[event := OEvent (delete_sdkProcessingMetadata e1)]> h) event
  = sdk_record h event.
Proof.
  intros Hevent. unfold sdk_record. rewrite lookup_insert_eq, Hevent. simpl.
  destruct (sdk e1) as [s|]; [|done].
  now apply (descriptor_insert_event h event e1).
Qed.

Section Payload.

Context {imports : Imports}.
Variable now : string.

(** X10: with an SDK descriptor in the metadata, the event that
    [createEventEnvelope] puts into the envelope carries the merged SDK info:
    its own name and version when they are truthy and the descriptor's
    otherwise, and its lists followed by the descriptor's. *)
Theorem createEventEnvelope_payload_sdk (h : heap) (event info : loc)
    (e : Event) (dsn : DsnComponents) (metadata : option SdkMetadata)
    (tunnel : option string) :
  h !! event = Some (OEvent e) -> valid_event h event = true ->
  valid_metadata h metadata = true -> metadata_sdk metadata = Some info ->
  exists (headers item_header : js_object) (h1 : heap),
    createEventEnvelope now event dsn metadata tunnel h
    = Some ((headers, [(item_header, event)]), h1) /\
    sdk_name h1 event = js_or (sdk_name h event) (name (descriptor h info)) /\
    sdk_version h1 event
    = js_or (sdk_version h event) (version (descriptor h info)) /\
    sdk_integrations h1 event
    = sdk_integrations h event ++ elements h (integrations (descriptor h info)) /\
    sdk_packages h1 event
    = sdk_packages h event ++ elements h (packages (descriptor h info)).
Proof.
  intros Hevent Hvalid Hmeta Hinfo.
  destruct (createEventEnvelope_run now h event e dsn metadata tunnel
              Hevent Hvalid Hmeta)
    as (h1 & e1 & Hmerge & Hevent1 & _ & _ & _ & Hrun).
  rewrite Hinfo in Hmerge.
  unfold valid_metadata in Hmeta. rewrite Hinfo in Hmeta.
  destruct (enhance_once _ _ _ _ Hevent Hvalid Hmeta)
    as (h1' & s & a1 & a2 & Hmerge' & _ & _ & _ & _ & Hrec & Hints & Hpkgs).
  assert (h1' = h1) by congruence. subst h1'.
  eexists. eexists. eexists. split; [exact Hrun|].
  unfold sdk_name, sdk_version, sdk_integrations, sdk_packages in *.
  rewrite (sdk_record_delete h1 event e1 Hevent1).
  rewrite !(elements_insert_event h1 event e1) by done.
  rewrite Hints, Hpkgs, Hrec. simpl. repeat split.
Qed.

End Payload.

(** ** The further properties on the sample stores *)

Lemma envelope_headers_sdk_dsn_values_witness :
  exists (headers : js_object) (items : list (js_object * loc)) (h1 : heap),
    @createEventEnvelope sample_imports sample_now 1%positive sample_dsn
      sample_metadata (Some "https://tunnel.example.com") sample_heap
    = Some ((headers, items), h1) /\
    get_prop "sdk" headers
    = Some (JObject [("name", JString "sentry.javascript.browser");
                     ("version", JString "7.1.0")]) /\
    get_prop "dsn" headers
    = Some (JString "https://abc123@sentry.example.com/42").
Proof.
  destruct (@envelope_headers_sdk_dsn_values sample_imports sample_now
              sample_dsn sample_metadata (Some "https://tunnel.example.com"))
    as [Hevent _].
  destruct (Hevent sample_heap 1%positive)
    as (headers & items & h1 & Hrun & Hsdk & Hdsn).
  - vm_compute. reflexivity.
  - vm_compute. reflexivity.
  - exists headers, items, h1. split; [exact Hrun|].
    split; [exact Hsdk|exact Hdsn].
Defined.

Lemma envelope_headers_keys_in_order_witness :
  exists (headers : js_object) (items : list (js_object * loc)),
    @createSessionEnvelope sample_imports sample_now 9%positive sample_dsn
      sample_metadata None sample_heap
    = Some ((headers, items), sample_heap) /\
    sublist (keys headers) ["sent_at"; "sdk"; "dsn"].
Proof.
  destruct (@envelope_headers_keys_in_order sample_imports sample_now
              sample_dsn sample_metadata None) as [_ Hsession].
  apply (Hsession sample_heap 9%positive [("aggregates", JArray [])]);
    vm_compute; reflexivity.
Defined.

Lemma createEventEnvelope_headers_of_input_witness :
  exists (headers : js_object) (items : list (js_object * loc)) (h1 : heap)
         (sdkInfo : option js_object),
    @createEventEnvelope sample_imports sample_now 1%positive sample_dsn
      sample_metadata None sample_heap
    = Some ((headers, items), h1) /\
    getSdkMetadataForEnvelopeHeader sample_metadata sample_heap
    = Some (sdkInfo, sample_heap) /\
    @createEventEnvelopeHeaders sample_imports sample_now 1%positive sdkInfo
      None sample_dsn sample_heap
    = Some (headers, sample_heap).
Proof.
  apply (@createEventEnvelope_headers_of_input sample_imports sample_now
           sample_heap 1%positive sample_dsn sample_metadata None);
    vm_compute; reflexivity.
Defined.

Lemma trace_header_goes_with_transaction_item_witness :
  exists (headers item_header : js_object) (h1 : heap),
    @createEventEnvelope sample_imports sample_now 1%positive sample_dsn
      sample_metadata None sample_heap
    = Some ((headers, [(item_header, 1%positive)]), h1) /\
    get_prop "type" item_header = Some (JString "transaction").
Proof.
  destruct (@trace_header_goes_with_transaction_item sample_imports
              sample_now sample_heap 1%positive sample_transaction sample_dsn
              sample_metadata None)
    as (headers & item_header & h1 & Hrun & Htrace & _).
  - vm_compute. reflexivity.
  - vm_compute. reflexivity.
  - vm_compute. reflexivity.
  - exists headers, item_header, h1. split; [exact Hrun|].
    apply Htrace. vm_compute in Hrun. injection Hrun as <- _ _.
    vm_compute. reflexivity.
Defined.

Lemma trace_header_fields_witness :
  exists (headers fields : js_object),
    @createEventEnvelopeHeaders sample_imports sample_now 1%positive None None
      sample_dsn sample_heap
    = Some (headers, sample_heap) /\
    get_prop "trace" headers = Some (JObject fields) /\
    get_prop "release" fields = None /\
    get_prop "public_key" fields = Some (JString "abc123") /\
    trace_user_is (user sample_transaction) fields.
Proof.
  destruct (@trace_header_fields sample_imports sample_now sample_heap
              1%positive sample_transaction
              {| trace := Some {| trace_id :=
                                    Some "86f39e84263a4de99c326acab3bfe3bd";
                                  trace_other := [] |};
                 contexts_other := [] |}
              {| trace_id := Some "86f39e84263a4de99c326acab3bfe3bd";
                 trace_other := [] |}
              None None sample_dsn)
    as (headers & fields & Hrun & Htrace & _ & _ & Hrelease & _ & Hkey
        & Huser & _).
  - vm_compute. reflexivity.
  - exists transaction_type. split; reflexivity.
  - reflexivity.
  - reflexivity.
  - exists headers, fields. split; [exact Hrun|]. split; [exact Htrace|].
    split; [exact Hrelease|]. split; [exact Hkey|exact Huser].
Defined.

Lemma enhanceEventWithSdkInfo_reads_only_witness :
  exists h1 : heap,
    enhanceEventWithSdkInfo 1%positive (Some 3%positive) c1_heap
    = Some (1%positive, h1) /\
    h1 !! 4%positive = Some (OArray [JString "InboundFilters"]) /\
    h1 !! 3%positive = c1_heap !! 3%positive.
Proof.
  destruct (enhanceEventWithSdkInfo_reads_only c1_heap 1%positive 3%positive
              c1_event) as (h1 & Hrun & Harrays & Hapart).
  - vm_compute. reflexivity.
  - vm_compute. reflexivity.
  - vm_compute. reflexivity.
  - exists h1. split; [exact Hrun|]. split.
    + apply Harrays. vm_compute. reflexivity.
    + apply Hapart. discriminate.
Defined.

Lemma enhanceEventWithSdkInfo_self_merge_witness :
  exists h1 : heap,
    enhanceEventWithSdkInfo 1%positive (Some 2%positive) c1_heap
    = Some (1%positive, h1) /\
    sdk_integrations h1 1%positive
    = [JString "InboundFilters"; JString "InboundFilters"].
Proof.
  destruct (enhanceEventWithSdkInfo_self_merge c1_heap 1%positive 2%positive
              c1_event) as (h1 & Hrun & _ & _ & _ & Hints & _).
  - vm_compute. reflexivity.
  - reflexivity.
  - vm_compute. reflexivity.
  - exists h1. split; [exact Hrun|]. rewrite Hints. vm_compute. reflexivity.
Defined.

Lemma merge_times_appends_witness :
  exists h1 : heap,
    merge_times 3 1%positive 3%positive c1_heap = Some (1%positive, h1) /\
    length (sdk_integrations h1 1%positive) = 7.
Proof.
  destruct (merge_times_appends 3 c1_heap 1%positive 3%positive c1_event)
    as (h1 & Hrun & Hints & _).
  - vm_compute. reflexivity.
  - discriminate.
  - vm_compute. reflexivity.
  - vm_compute. reflexivity.
  - exists h1. split; [exact Hrun|]. rewrite Hints. vm_compute. reflexivity.
Defined.

Lemma createEventEnvelope_twice_witness :
  exists (headers : js_object) (items : list (js_object * loc))
         (item_header : js_object) (h1 h2 : heap),
    @createEventEnvelope sample_imports sample_now 1%positive sample_dsn
      sample_metadata None sample_heap
    = Some ((headers, items), h1) /\
    @createEventEnvelope sample_imports sample_now 1%positive sample_dsn
      sample_metadata None h1
    = Some ((headers, [(item_header, 1%positive)]), h2) /\
    item_header
    = [("type", JString "transaction");
       ("sample_rates",
        JArray [JObject [("id", JUndefined); ("rate", JUndefined)]])].
Proof.
  apply (@createEventEnvelope_twice sample_imports sample_now sample_heap
           1%positive sample_transaction sample_dsn sample_metadata None);
    vm_compute; reflexivity.
Defined.

Lemma createEventEnvelope_payload_sdk_witness :
  exists (headers item_header : js_object) (h1 : heap),
    @createEventEnvelope sample_imports sample_now 1%positive sample_dsn
      sample_metadata None sample_heap
    = Some ((headers, [(item_header, 1%positive)]), h1) /\
    sdk_name h1 1%positive = Some "sentry.javascript.react" /\
    sdk_version h1 1%positive = Some "7.1.0" /\
    sdk_integrations h1 1%positive
    = [JString "BrowserTracing"; JString "InboundFilters";
       JString "BrowserTracing"].
Proof.
  destruct (@createEventEnvelope_payload_sdk sample_imports sample_now
              sample_heap 1%positive 3%positive sample_transaction sample_dsn
              sample_metadata None)
    as (headers & item_header & h1 & Hrun & Hname & Hversion & Hints & _).
  - vm_compute. reflexivity.
  - vm_compute. reflexivity.
  - vm_compute. reflexivity.
  - reflexivity.
  - exists headers, item_header, h1. split; [exact Hrun|].
    rewrite Hname, Hversion, Hints. vm_compute. repeat split.
Defined.
